(** * Database-Tools: the identity-resolution engine

    A shallow embedding of [modules/CityList.py], [tools.py] and
    [modules/AntigenicDatabase.py], and the properties of the place
    directory, the deep-structure utilities, the entry resolver and the
    dataset matcher that are stated about them.

    Conventions of the embedding.
    - A Python [str] is a [string] of 8-bit characters; [upper], [isalpha]
      and [isnumeric] act on the ASCII letters and digits.
    - A raised exception is a value [Raise e] of the error monad [py].
    - JSON-like values are the inductive [pyval]; a [dict] is an association
      list in insertion order.
    - The [re] module is a parameter (class [ReEngine]); [mut_findall] embeds
      the one fixed pattern of the sources. *)

From Stdlib Require Import ZArith QArith Ascii String List Bool Lia Permutation.
From stdpp Require Import base list strings gmap.

#[local] Open Scope string_scope.
#[local] Open Scope list_scope.
#[local] Open Scope nat_scope.

(** ** Exceptions *)

Inductive exn : Set :=
| AssertionError
| AttributeError
| TypeError
| ValueError
| KeyError
| ZeroDivisionError
| re_error.

Inductive py (A : Type) : Type :=
| Ok (a : A)
| Raise (e : exn).
Arguments Ok {A} a.
Arguments Raise {A} e.

(** [[f(x) for x in xs]]: the elements are computed from left to right and the
    first exception aborts the comprehension. *)
Fixpoint comprehension {A B : Type} (f : A -> py B) (xs : list A) : py (list B) :=
  match xs with
  | [] => Ok []
  | x :: xs' =>
      match f x with
      | Raise e => Raise e
      | Ok y =>
          match comprehension f xs' with
          | Raise e => Raise e
          | Ok ys => Ok (y :: ys)
          end
      end
  end.

(** ** Strings *)

Module Str.

Definition is_lower (c : ascii) : bool :=
  (97 <=? nat_of_ascii c) && (nat_of_ascii c <=? 122).

Definition is_upper (c : ascii) : bool :=
  (65 <=? nat_of_ascii c) && (nat_of_ascii c <=? 90).

Definition is_digit (c : ascii) : bool :=
  (48 <=? nat_of_ascii c) && (nat_of_ascii c <=? 57).

(** [c.isalpha()] and [c.isnumeric()] of a one-character string. *)
Definition isalpha (c : ascii) : bool := is_lower c || is_upper c.
Definition isnumeric (c : ascii) : bool := is_digit c.

Definition upper_char (c : ascii) : ascii :=
  if is_lower c then ascii_of_nat (nat_of_ascii c - 32) else c.

(** [s.upper()] *)
Fixpoint upper (s : string) : string :=
  match s with
  | EmptyString => EmptyString
  | String c s' => String (upper_char c) (upper s')
  end.

(** [sub in s] *)
Fixpoint contains (sub s : string) : bool :=
  String.prefix sub s ||
  match s with
  | EmptyString => false
  | String _ s' => contains sub s'
  end.

(** [s.replace(old, new)] for a non-empty [old]: the occurrences are taken
    from the left and do not overlap; [skip] counts the characters of an
    occurrence that are still to be passed over. *)
Fixpoint replace_from (old new : string) (skip : nat) (s : string) : string :=
  match s with
  | EmptyString => EmptyString
  | String c s' =>
      match skip with
      | S k => replace_from old new k s'
      | O =>
          if String.prefix old s
          then new +:+ replace_from old new (String.length old - 1) s'
          else String c (replace_from old new 0 s')
      end
  end.

(** [s.replace(old, new)] with an empty [old] puts [new] before every character and at the end. *)
Fixpoint intersperse (new s : string) : string :=
  match s with
  | EmptyString => new
  | String c s' => new +:+ String c (intersperse new s')
  end.

Definition replace (old new s : string) : string :=
  match old with
  | EmptyString => intersperse new s
  | _ => replace_from old new 0 s
  end.

(** [s.split(sep)] for a one-character separator. *)
Fixpoint split (sep : ascii) (s : string) : list string :=
  match s with
  | EmptyString => [EmptyString]
  | String c s' =>
      if Ascii.eqb c sep then EmptyString :: split sep s'
      else match split sep s' with
           | [] => [String c EmptyString]
           | h :: t => String c h :: t
           end
  end.

(** [''.join(parts)] *)
Definition join (parts : list string) : string :=
  fold_right String.append EmptyString parts.

(** [s[0:-1]] *)
Fixpoint drop_last (s : string) : string :=
  match s with
  | EmptyString => EmptyString
  | String c EmptyString => EmptyString
  | String c s' => String c (drop_last s')
  end.

(** [[p(x) for x in s].count(True)] *)
Fixpoint count (p : ascii -> bool) (s : string) : nat :=
  match s with
  | EmptyString => 0
  | String c s' => (if p c then 1 else 0) + count p s'
  end.

End Str.

(** [tools.flatten_list] *)
Definition flatten_list {A : Type} (list_to_flatten : list (list A)) : list A :=
  concat list_to_flatten.

(** ** CityList.py: alias generation *)

Definition replace_chars : list string := ["-"; "_"; " "; "/"].

(** The inner loop of [generate_city_aliases]: [char2] ranges over the
    separators after [char1] in [replace_chars], then the empty string. *)
Definition aliases_of_char (name0 : string) (char1 : string) (later : list string)
  : list string :=
  flat_map (fun char2 =>
              if Str.contains char1 name0 then [Str.replace char1 char2 name0] else [])
           (later ++ [EmptyString]).

Fixpoint aliases_loop (name0 : string) (chars : list string) : list string :=
  match chars with
  | [] => []
  | char1 :: later => aliases_of_char name0 char1 later ++ aliases_loop name0 later
  end.

Definition generate_city_aliases (name : string) : list string :=
  let name0 := Str.upper name in
  name0 :: aliases_loop name0 replace_chars.

(** The pairs of separators that [generate_city_aliases] goes through: the
    second one stands after the first in [replace_chars], or is the empty
    string. *)
Fixpoint later_pairs (chars : list string) : list (string * string) :=
  match chars with
  | [] => []
  | char1 :: later => map (pair char1) (later ++ [EmptyString]) ++ later_pairs later
  end.

(** ** External libraries *)

(** The [re] module.  [re_compile ignorecase pattern] is
    [re.compile(pattern, re.IGNORECASE)] or [re.compile(pattern)] and raises
    [re_error] on an ill-formed pattern; [re_search r s] is the truth value of
    [r.search(s)]. *)
Class ReEngine : Type := {
  regex : Type;
  re_compile : bool -> string -> py regex;
  re_search : regex -> string -> bool
}.

(** [editdistance.eval]: the Levenshtein distance. *)
Fixpoint ed_eval (s : string) : string -> nat :=
  fix ed_eval_s (t : string) : nat :=
    match s with
    | EmptyString => String.length t
    | String a s' =>
        match t with
        | EmptyString => String.length s
        | String b t' =>
            if Ascii.eqb a b then ed_eval s' t'
            else S (Nat.min (ed_eval s' t) (Nat.min (ed_eval_s t') (ed_eval s' t')))
        end
    end.

(** ** numpy and built-in reductions over integer lists *)

(** [np.min(np.array(l))], [np.max(np.array(l))] and the built-in [min(l)]:
    a [ValueError] on an empty sequence. *)
Definition py_min (l : list nat) : py nat :=
  match l with
  | [] => Raise ValueError
  | x :: l' => Ok (fold_left Nat.min l' x)
  end.

Definition np_min : list nat -> py nat := py_min.

Definition np_max (l : list nat) : py nat :=
  match l with
  | [] => Raise ValueError
  | x :: l' => Ok (fold_left Nat.max l' x)
  end.

(** [np.argwhere(a == v).flatten()] *)
Fixpoint argwhere_from (i : nat) (v : nat) (a : list nat) : list nat :=
  match a with
  | [] => []
  | x :: a' => if x =? v then i :: argwhere_from (S i) v a' else argwhere_from (S i) v a'
  end.

Definition np_argwhere_eq (a : list nat) (v : nat) : list nat := argwhere_from 0 v a.

(** [np.argmin(np.array(l))]: the first index of the least element ([0] stands
    for the [ValueError] of an empty array, which the callers below exclude). *)
Fixpoint argmin_from (i best_i best : nat) (l : list nat) : nat :=
  match l with
  | [] => best_i
  | x :: l' =>
      if x <? best then argmin_from (S i) i x l' else argmin_from (S i) best_i best l'
  end.

Definition np_argmin (l : list nat) : nat :=
  match l with
  | [] => 0
  | x :: l' => argmin_from 1 0 x l'
  end.

(** [[l[x] for x in I]] (written [Ix]) for indices that [enumerate] or [np.argwhere] produced
    from a list as long as [l]; they are in range. *)
Definition take_indices {A : Type} (l : list A) (Ix : list nat) : list A :=
  flat_map (fun x => match l !! x with Some a => [a] | None => [] end) Ix.

Fixpoint enumerate_from {A : Type} (i : nat) (l : list A) : list (nat * A) :=
  match l with
  | [] => []
  | x :: l' => (i, x) :: enumerate_from (S i) l'
  end.

Definition enumerate {A : Type} (l : list A) : list (nat * A) := enumerate_from 0 l.

(** [[ind for ind, x in enumerate(l) if p(x)]] with a predicate that may raise. *)
Fixpoint indices_where {A : Type} (p : A -> py bool) (l : list (nat * A)) : py (list nat) :=
  match l with
  | [] => Ok []
  | (ind, x) :: l' =>
      match p x with
      | Raise e => Raise e
      | Ok b =>
          match indices_where p l' with
          | Raise e => Raise e
          | Ok Ix => Ok (if b then ind :: Ix else Ix)
          end
      end
  end.

(** Comparison of Python numbers, as exact rationals. *)
Definition Qltb (x y : Q) : bool := negb (Qle_bool y x).
Definition Q_of_nat (n : nat) : Q := inject_Z (Z.of_nat n).

(** ** CityList.py: City and CityList *)

Record City : Type := mkCity {
  name : string;
  abb : string;
  aliases : list string
}.

(** [City.__init__] *)
Definition City_init (name abb : string) : City :=
  {| name := Str.upper name; abb := abb; aliases := generate_city_aliases name |}.

Record CityList : Type := mkCityList {
  cities : list City
}.

(** [CityList.__init__], for the table [city_map] of abbreviation and name in
    the order of the dictionary literal.  The lists of non-unique and
    problematic names that it also fills are printed diagnostics. *)
Definition CityList_init (city_map : list (string * string)) : CityList :=
  {| cities := map (fun '(abb, city_name) => City_init city_name abb) city_map |}.

Section CityListOps.

Context {RE : ReEngine}.

(** The loop of [City.match] over the aliases of the query. *)
Fixpoint match_loop (city_aliases : list string) (exact_match : bool)
  (query_aliases : list string) : py bool :=
  match query_aliases with
  | [] => Ok false
  | query :: rest =>
      let query := if exact_match then "^" +:+ query +:+ "$" else query in
      match re_compile true query with
      | Raise e => Raise e
      | Ok regexp =>
          if existsb (re_search regexp) city_aliases then Ok true
          else match_loop city_aliases exact_match rest
      end
  end.

(** [City.match] *)
Definition City_match (self : City) (query : string) (aliasing exact_match : bool)
  : py bool :=
  let query_aliases := if aliasing then generate_city_aliases query else [query] in
  let city_aliases := if aliasing then aliases self else [name self] in
  match_loop city_aliases exact_match query_aliases.

(** [City.ematch] *)
Definition City_ematch (self : City) (query : string) (aliasing : bool) : py nat :=
  let lookup_vals := if aliasing then aliases self else [name self] in
  py_min (map (fun x => ed_eval x query) lookup_vals).

(** The indices [I] that [CityList.search] collects, one fragment after the
    other. *)
Fixpoint search_loop (self : CityList) (aliasing exact_match : bool)
  (query_list : list string) : py (list nat) :=
  match query_list with
  | [] => Ok []
  | q :: rest =>
      match indices_where (fun city => City_match city q aliasing exact_match)
                          (enumerate (cities self)) with
      | Raise e => Raise e
      | Ok I1 =>
          match search_loop self aliasing exact_match rest with
          | Raise e => Raise e
          | Ok I2 => Ok (I1 ++ I2)
          end
      end
  end.

Definition search_indices (self : CityList) (query : string)
  (split aliasing exact_match : bool) : py (list nat) :=
  let query_list :=
    if split
    then filter (fun x => 2 <? String.length x) (Str.split "/" query)
    else [query] in
  search_loop self aliasing exact_match query_list.

(** [CityList.search] *)
Definition CityList_search (self : CityList) (query : string)
  (split aliasing exact_match : bool) : py (list City) :=
  match search_indices self query split aliasing exact_match with
  | Raise e => Raise e
  | Ok Ix => Ok (take_indices (cities self) Ix)
  end.

(** [CityList.esearch]; [len(query)/2] is a true division. *)
Definition CityList_esearch (self : CityList) (query : string) (aliasing : bool)
  : py (list City * Q) :=
  match comprehension (fun city => City_ematch city query aliasing) (cities self) with
  | Raise e => Raise e
  | Ok edistances =>
      match np_min edistances with
      | Raise e => Raise e
      | Ok min_edist =>
          if Qltb (Q_of_nat min_edist) (Q_of_nat (String.length query) / 2)%Q
          then Ok (take_indices (cities self) (np_argwhere_eq edistances min_edist),
                   Q_of_nat min_edist)
          else Ok ([], (Q_of_nat (String.length query) / 2)%Q)
      end
  end.

End CityListOps.

(** [[ind for ind, x in enumerate(l) if p(x)]] for a test that cannot raise. *)
Fixpoint indices_if {A : Type} (p : A -> bool) (l : list (nat * A)) : list nat :=
  match l with
  | [] => []
  | (ind, x) :: l' => if p x then ind :: indices_if p l' else indices_if p l'
  end.

(** [CityList.abb_to_city] and [CityList.name_to_city] *)
Definition abb_to_city (self : CityList) (ab : string) : list City :=
  take_indices (cities self)
               (indices_if (fun city => String.eqb (abb city) ab) (enumerate (cities self))).

Definition name_to_city (self : CityList) (nm : string) : list City :=
  take_indices (cities self)
               (indices_if (fun city => String.eqb (name city) nm) (enumerate (cities self))).

(** [l.count(x)] *)
Definition list_count (x : string) (l : list string) : nat :=
  length (filter (fun y => Is_true (String.eqb y x)) l).

(** The two loops of [CityList.health_check]; the state is the list
    [self.nonunique_cities], respectively [self.nonunique_abbs].  The lines it
    prints are left out. *)
Fixpoint nonunique_cities_loop (self : CityList) (todo : list City)
  (nonunique_cities : list string) : list string :=
  match todo with
  | [] => nonunique_cities
  | city :: rest =>
      nonunique_cities_loop self rest
        (if (1 <? length (name_to_city self (name city)))
            && negb (bool_decide (name city ∈ nonunique_cities))
         then nonunique_cities ++ [name city]
         else nonunique_cities)
  end.

Fixpoint nonunique_abbs_loop (abbs : list string) (todo : list string)
  (nonunique_abbs : list string) : list string :=
  match todo with
  | [] => nonunique_abbs
  | ab :: rest =>
      nonunique_abbs_loop abbs rest
        (if (1 <? list_count ab abbs) && negb (bool_decide (ab ∈ nonunique_abbs))
         then nonunique_abbs ++ [ab]
         else nonunique_abbs)
  end.

Definition nonunique_cities (self : CityList) : list string :=
  nonunique_cities_loop self (cities self) [].

Definition nonunique_abbs (self : CityList) : list string :=
  let abbs := map abb (cities self) in
  nonunique_abbs_loop abbs abbs [].

(** [self.problematic_names] as [CityList.__init__] fills it. *)
Definition problematic_names (city_map : list (string * string))
  : list (string * string) :=
  flat_map (fun '(ab, city_name) =>
              (if (String.length ab =? 0) || (2 <? String.length ab)
               then [(ab, city_name)] else [])
              ++ (if String.length city_name <? 3 then [(ab, city_name)] else []))
           city_map.

(** ** Python values *)

#[local] Set Warnings "-register-all".

(** The values a record read from JSON is built from.  A [dict] keeps its
    items in insertion order and its keys are strings. *)
Inductive pyval : Type :=
| VNone
| VBool (b : bool)
| VInt (z : Z)
| VStr (s : string)
| VList (l : list pyval)
| VDict (d : list (string * pyval)).

(** Induction on values, through the lists and dicts they nest. *)
Section pyval_induction.

Variable P : pyval -> Prop.
Hypothesis HNone : P VNone.
Hypothesis HBool : forall b, P (VBool b).
Hypothesis HInt : forall z, P (VInt z).
Hypothesis HStr : forall s, P (VStr s).
Hypothesis HList : forall l, Forall P l -> P (VList l).
Hypothesis HDict : forall d, Forall (fun kv => P (snd kv)) d -> P (VDict d).

Fixpoint pyval_nested_ind (v : pyval) : P v :=
  match v with
  | VNone => HNone
  | VBool b => HBool b
  | VInt z => HInt z
  | VStr s => HStr s
  | VList l =>
      HList l ((fix go (l : list pyval) : Forall P l :=
                  match l with
                  | [] => @List.Forall_nil _ P
                  | x :: l' => @List.Forall_cons _ P x l' (pyval_nested_ind x) (go l')
                  end) l)
  | VDict d =>
      HDict d ((fix go (d : list (string * pyval)) : Forall (fun kv => P (snd kv)) d :=
                  match d with
                  | [] => @List.Forall_nil _ _
                  | (k, x) :: d' =>
                      @List.Forall_cons _ (fun kv => P (snd kv)) (k, x) d'
                                        (pyval_nested_ind x) (go d')
                  end) d)
  end.

End pyval_induction.

Definition record : Type := list (string * pyval).

(** [key in d] and [d[key]] *)
Definition has_key (key : string) (d : record) : bool :=
  existsb (fun kv => String.eqb (fst kv) key) d.

Fixpoint getitem (d : record) (key : string) : py pyval :=
  match d with
  | [] => Raise KeyError
  | (k, v) :: d' => if String.eqb k key then Ok v else getitem d' key
  end.

(** [a == b] when one side is [None], a [bool], an [int] or a [str]; a [bool]
    is the integer 0 or 1. *)
Definition scalar_eq (a b : pyval) : bool :=
  match a, b with
  | VNone, VNone => true
  | VBool x, VBool y => Bool.eqb x y
  | VInt x, VInt y => Z.eqb x y
  | VBool x, VInt y => Z.eqb (Z.b2z x) y
  | VInt x, VBool y => Z.eqb x (Z.b2z y)
  | VStr x, VStr y => String.eqb x y
  | _, _ => false
  end.

(** The truth value of a Python object. *)
Definition truthy (v : pyval) : bool :=
  match v with
  | VNone => false
  | VBool b => b
  | VInt z => negb (Z.eqb z 0)
  | VStr s => negb (String.eqb s EmptyString)
  | VList l => match l with [] => false | _ => true end
  | VDict d => match d with [] => false | _ => true end
  end.

(** [list(iter(v))]: the characters of a string, the elements of a list, the
    keys of a dict; [None] stands for the [TypeError] of the other values. *)
Fixpoint chars (s : string) : list pyval :=
  match s with
  | EmptyString => []
  | String c s' => VStr (String c EmptyString) :: chars s'
  end.

Definition py_iter (v : pyval) : option (list pyval) :=
  match v with
  | VStr s => Some (chars s)
  | VList l => Some l
  | VDict d => Some (map (fun kv => VStr (fst kv)) d)
  | _ => None
  end.

(** [sorted(keys)] on strings. *)
Fixpoint insert_sorted (k : string) (l : list string) : list string :=
  match l with
  | [] => [k]
  | h :: t => if String.leb k h then k :: l else h :: insert_sorted k t
  end.

Definition sorted (l : list string) : list string := fold_right insert_sorted [] l.

Definition count_true (l : list bool) : nat := length (filter (fun b => Is_true b) l).

(** ** tools.py *)

Module tools.

(** The comparison [deep_eq] makes of a first argument already taken apart:
    [d1] pairs each key of the first dict with the comparison of its value
    against a second value. *)
Fixpoint lookup_cmp (d1 : list (string * (pyval -> py bool))) (k : string)
  : option (pyval -> py bool) :=
  match d1 with
  | [] => None
  | (k', f) :: d' => if String.eqb k' k then Some f else lookup_cmp d' k
  end.

(** [_deep_dict_eq] *)
Definition _deep_dict_eq (d1 : list (string * (pyval -> py bool))) (d2 : record)
  : py bool :=
  let k1 := sorted (map fst d1) in
  let k2 := sorted (map fst d2) in
  if negb (bool_decide (k1 = k2)) then Ok false
  else
    match comprehension
            (fun k => match lookup_cmp d1 k, getitem d2 k with
                      | Some f, Ok v2 => f v2
                      | _, _ => Raise KeyError
                      end) k1 with
    | Raise e => Raise e
    | Ok rs => Ok (count_true rs =? length k1)
    end.

(** [_deep_iter_eq] *)
Definition _deep_iter_eq (l1 : list (pyval -> py bool)) (l2 : list pyval) : py bool :=
  if negb (length l1 =? length l2) then Ok false
  else
    match comprehension (fun fv : (pyval -> py bool) * pyval => fst fv (snd fv))
                        (zip l1 l2) with
    | Raise e => Raise e
    | Ok rs => Ok (count_true rs =? length l1)
    end.

(** [deep_eq].  The guard on strings looks at [_v1] only; a first argument
    that is a dict calls [_v2.keys()], an [AttributeError] unless [_v2] is a
    dict; any other first argument is compared element by element when both
    [iter(_v1)] and [iter(_v2)] succeed and with [operator.eq] otherwise. *)
Fixpoint deep_eq (_v1 : pyval) : pyval -> py bool :=
  match _v1 with
  | VStr _ => fun _v2 => Ok (scalar_eq _v1 _v2)
  | VDict d1 => fun _v2 =>
      match _v2 with
      | VDict d2 => _deep_dict_eq (map (fun kv => (fst kv, deep_eq (snd kv))) d1) d2
      | _ => Raise AttributeError
      end
  | VList l1 => fun _v2 =>
      match py_iter _v2 with
      | Some c2 => _deep_iter_eq (map deep_eq l1) c2
      | None => Ok (scalar_eq _v1 _v2)
      end
  | VNone | VBool _ | VInt _ => fun _v2 => Ok (scalar_eq _v1 _v2)
  end.

Section Search.

Context {RE : ReEngine}.

(** The [search_expression] and [comparitor] that [dict_search] sets up,
    as the test applied to a string [lookup_expression]. *)
Definition comparitor (search_value : string) (ignore_case regexp : bool)
  : py (string -> bool) :=
  if regexp then
    match re_compile ignore_case search_value with
    | Raise e => Raise e
    | Ok search_expression => Ok (re_search search_expression)
    end
  else
    Ok (String.eqb (if ignore_case then Str.upper search_value else search_value)).

(** [dict_search] on the dict [VDict d]; every recursive call sets up its
    comparison again. *)
Fixpoint dict_search_val (dictionary : pyval) (search_value : string)
  (ignore_case regexp : bool) {struct dictionary} : py bool :=
  match comparitor search_value ignore_case regexp with
  | Raise e => Raise e
  | Ok compare =>
      let test_str (lookup_value : string) : bool :=
        compare (if ignore_case then Str.upper lookup_value else lookup_value) in
      match dictionary with
      | VDict d =>
          (fix keys_loop (d : list (string * pyval)) : py bool :=
             match d with
             | [] => Ok false
             | (key, lookup_values) :: d' =>
                 match
                   match lookup_values with
                   | VList l =>
                       (fix values_loop (l : list pyval) : py bool :=
                          match l with
                          | [] => Ok false
                          | lookup_value :: l' =>
                              match
                                match lookup_value with
                                | VDict _ =>
                                    dict_search_val lookup_value search_value
                                                    ignore_case regexp
                                | VStr s => Ok (test_str s)
                                | _ => Ok false
                                end
                              with
                              | Raise e => Raise e
                              | Ok true => Ok true
                              | Ok false => values_loop l'
                              end
                          end) l
                   | VDict _ =>
                       dict_search_val lookup_values search_value ignore_case regexp
                   | VStr s => Ok (test_str s)
                   | _ => Ok false
                   end
                 with
                 | Raise e => Raise e
                 | Ok true => Ok true
                 | Ok false => keys_loop d'
                 end
             end) d
      | _ => Ok false
      end
  end.

Definition dict_search (dictionary : record) (search_value : string)
  (ignore_case regexp : bool) : py bool :=
  dict_search_val (VDict dictionary) search_value ignore_case regexp.

(** [dict_key_search] on the dict [VDict d]: the items whose key passes the
    comparison, each followed by the matches inside its value when that value
    is a dict.  [flatten_list] of the one-element list of the nested result is
    that result. *)
Fixpoint dict_key_search_val (dictionary : pyval) (search_key : string)
  (ignore_case regexp : bool) {struct dictionary} : py (list (string * pyval)) :=
  match comparitor search_key ignore_case regexp with
  | Raise e => Raise e
  | Ok compare =>
      match dictionary with
      | VDict d =>
          (fix keys_loop (d : list (string * pyval)) : py (list (string * pyval)) :=
             match d with
             | [] => Ok []
             | (key, lookup_value) :: d' =>
                 let key_expression := if ignore_case then Str.upper key else key in
                 match
                   match lookup_value with
                   | VDict _ =>
                       dict_key_search_val lookup_value search_key ignore_case regexp
                   | _ => Ok []
                   end
                 with
                 | Raise e => Raise e
                 | Ok nested =>
                     match keys_loop d' with
                     | Raise e => Raise e
                     | Ok rest =>
                         Ok ((if compare key_expression then [(key, lookup_value)] else [])
                               ++ flatten_list [nested] ++ rest)
                     end
                 end
             end) d
      | _ => Ok []
      end
  end.

Definition dict_key_search (dictionary : record) (search_key : string)
  (ignore_case regexp : bool) : py (list (string * pyval)) :=
  dict_key_search_val (VDict dictionary) search_key ignore_case regexp.

End Search.

End tools.

(** ** AntigenicDatabase.py *)

Module AntigenicDatabase.

(** *** The mutation pattern

    [mut_pattern] is
    [([ARNDCEQGHILKMFPSTWYV]\d{2,3}[ARNDCEQGHILKMFPSTWYV])]: an amino-acid
    letter, two or three digits, an amino-acid letter. *)

Definition amino_acids : list ascii := list_ascii_of_string "ARNDCEQGHILKMFPSTWYV".

Definition is_amino (c : ascii) : bool := existsb (Ascii.eqb c) amino_acids.

(** The match of a pattern [[L]\d{2,3}[L]] that starts at the first
    character of [s], for a class [L] of letters.  The quantifier is greedy:
    three digits are tried first, and the two-digit alternative needs a
    letter where the third digit stood. *)
Definition token_at (letter : ascii -> bool) (s : string) : option string :=
  match s with
  | String a (String d1 (String d2 (String x rest))) =>
      if letter a && Str.is_digit d1 && Str.is_digit d2 then
        if Str.is_digit x then
          match rest with
          | String y _ =>
              if letter y
              then Some (String a (String d1 (String d2 (String x (String y EmptyString)))))
              else None
          | EmptyString => None
          end
        else if letter x
             then Some (String a (String d1 (String d2 (String x EmptyString))))
             else None
      else None
  | _ => None
  end.

(** [re.findall] of such a pattern: the matches from the left, the search
    resuming where the previous match ended. *)
Fixpoint findall_from (letter : ascii -> bool) (skip : nat) (s : string) : list string :=
  match s with
  | EmptyString => []
  | String c s' =>
      match skip with
      | S k => findall_from letter k s'
      | O =>
          match token_at letter s with
          | Some m => m :: findall_from letter (String.length m - 1) s'
          | None => findall_from letter 0 s'
          end
      end
  end.

(** [re.findall(mut_pattern, s)] *)
Definition mut_findall (s : string) : list string := findall_from is_amino 0 s.

(** [flatten_list([z.split('-') for z in flatten_list([x.split('_') for x in
    s.split('/')])])] *)
Definition split_all (s : string) : list string :=
  flatten_list (map (Str.split "-")
                    (flatten_list (map (Str.split "_") (Str.split "/" s)))).

(** *** Entry *)

Record Entry : Type := mkEntry {
  _data : record;
  id : pyval;
  long : string;
  properties : record;
  short : string
}.

Record Dataset : Type := mkDataset {
  dataset_data : list record;
  entries : list Entry;
  ids : list pyval;
  longs : list string
}.

(** What the constructors print: a line of text, the line of
    [general_health_check] on an id met [n] times (with [entries], its
    format arguments), an entry printed through its [__str__], and the
    entries that a [print] of several entries puts on one line. *)
Inductive output : Type :=
| Line (s : string)
| EncounteredLine (entry_id : pyval) (n : nat)
| EntryLine (e : Entry)
| EntriesLine (es : list Entry).

Section Resolver.

Context {RE : ReEngine}.

(** The module-level [city_list = CityList()], built from the table
    [city_map]. *)
Variable city_map : list (string * string).

Definition city_list : CityList := CityList_init city_map.

(** [list(set(cs))] for a list of [City] objects of the directory, given by
    their indices.  [City] defines neither [__eq__] nor [__hash__]: the set
    holds each object once, under its identity, and lists its members in
    the order of the hashes of the identities. *)
Variable set_iter : list nat -> list nat.

(** The body of the loop of [_find_short_name] for one [city]. *)
Definition replace_city (city : City) (short_name : string) : string :=
  if Str.contains (name city) short_name
  then Str.replace (name city) (abb city) short_name
  else
    let split_name := Str.split "/" short_name in
    let edists := map (fun nm => ed_eval nm (name city)) split_name in
    let split_name := <[np_argmin edists := abb city]> split_name in
    let split_name := map (fun x => x +:+ "/") split_name in
    Str.drop_last (Str.join split_name).

Fixpoint short_name_loop (cs : list City) (short_name : string) : string :=
  match cs with
  | [] => short_name
  | city :: rest => short_name_loop rest (replace_city city short_name)
  end.

(** [Entry._find_short_name] *)
Definition _find_short_name (long : string) : py string :=
  match search_indices city_list long true false false with
  | Raise e => Raise e
  | Ok Ix => Ok (short_name_loop (take_indices (cities city_list) (set_iter Ix)) long)
  end.

(** [Entry.__init__]; [city_list.search] asserts that the long name is a
    string. *)
Definition Entry_init (data : record) : py Entry :=
  if negb (has_key "id" data) then Raise AssertionError
  else
    match getitem data "id" with
    | Raise e => Raise e
    | Ok id =>
        if negb (has_key "long" data) then Raise AssertionError
        else
          match getitem data "long" with
          | Raise e => Raise e
          | Ok (VStr long) =>
              match _find_short_name long with
              | Raise e => Raise e
              | Ok short =>
                  Ok {| _data := data;
                        id := id;
                        long := long;
                        properties :=
                          filter (fun kv => negb (bool_decide (fst kv ∈ ["id"; "long"]))) data;
                        short := short |}
              end
          | Ok _ => Raise AssertionError
          end
    end.

(** [Entry._deep_search] *)
Definition _deep_search (self : Entry) (search_value : string)
  (ignore_case regexp : bool) : py bool :=
  tools.dict_search (_data self) search_value ignore_case regexp.

(** The mutation gate of [_alias_search]: [set(muts1) != set(muts2)]. *)
Definition muts1 (search_names : list string) : list string :=
  flatten_list (map mut_findall search_names).

Definition muts2 (self : Entry) : list string :=
  flatten_list (map mut_findall (split_all (long self))).

Definition mutations_differ (self : Entry) (search_names : list string) : bool :=
  bool_decide (list_to_set (C := gset string) (muts1 search_names)
               ≠ list_to_set (C := gset string) (muts2 self)).

(** The refined branch, first loop: does any part have a directory hit? *)
Fixpoint any_city_loop (parts : list string) (city_found : bool) : py bool :=
  match parts with
  | [] => Ok city_found
  | part :: rest =>
      match CityList_search city_list part false false false with
      | Raise e => Raise e
      | Ok found =>
          any_city_loop rest (if 0 <? length found then true else city_found)
      end
  end.

(** Second loop: the inner [break] leaves the loop over the found cities
    after the first of them, the one under [GYRF] leaves the loop over the
    parts. *)
Fixpoint guess_loop (parts : list string) (found_city_names : list string)
  (city_found : bool) : py (list string * bool) :=
  match parts with
  | [] => Ok (found_city_names, city_found)
  | part :: rest =>
      match CityList_search city_list part false false false with
      | Raise e => Raise e
      | Ok found_cities =>
          match found_cities with
          | found_city :: _ =>
              guess_loop rest (found_city_names ++ [name found_city]) true
          | [] =>
              if Str.contains "GYRF" part
              then Ok (found_city_names ++ ["GYRFALCON"; "WASHINGTON"], true)
              else guess_loop rest found_city_names city_found
          end
      end
  end.

(** Third loop: [dist/len(part) <= 0.25] on the result of [esearch]. *)
Fixpoint esearch_loop (parts : list string) (found_city_names : list string)
  : py (list string) :=
  match parts with
  | [] => Ok found_city_names
  | part :: rest =>
      match CityList_esearch city_list part true with
      | Raise e => Raise e
      | Ok (found, dist) =>
          if String.length part =? 0 then Raise ZeroDivisionError
          else if Qle_bool (dist / Q_of_nat (String.length part)) (1 # 4)
               then Ok (found_city_names ++ map name found)
               else esearch_loop rest found_city_names
      end
  end.

Definition refine_search_names (query : string) (search_names : list string)
  : py (list string) :=
  match any_city_loop search_names false with
  | Raise e => Raise e
  | Ok city_found =>
      match
        (if city_found then Ok []
         else
           match guess_loop search_names [] false with
           | Raise e => Raise e
           | Ok (found_city_names, city_found) =>
               if city_found then Ok found_city_names
               else esearch_loop search_names found_city_names
           end)
      with
      | Raise e => Raise e
      | Ok found_city_names => Ok (split_all query ++ found_city_names)
      end
  end.

(** The filter on short, low-information names. *)
Definition informative (name : string) : bool :=
  let n_alpha := Str.count Str.isalpha name in
  let n_numeric := Str.count Str.isnumeric name in
  (4 <? String.length name) || (3 <? n_numeric) || (3 <? n_alpha).

Fixpoint matches_loop (self : Entry) (ignore_case regexp : bool)
  (search_names : list string) (matches : nat) : py nat :=
  match search_names with
  | [] => Ok matches
  | name :: rest =>
      if informative name then
        match _deep_search self name ignore_case regexp with
        | Raise e => Raise e
        | Ok hit =>
            matches_loop self ignore_case regexp rest
                         (if hit then S matches else matches)
        end
      else matches_loop self ignore_case regexp rest matches
  end.

(** [Entry._alias_search] *)
Definition _alias_search (self : Entry) (query : string)
  (ignore_case refined ignore_mutations regexp : bool) : py nat :=
  let search_names := Str.split "/" query in
  if negb ignore_mutations && mutations_differ self search_names then Ok 0
  else
    match (if refined then refine_search_names query search_names
           else Ok search_names) with
    | Raise e => Raise e
    | Ok search_names => matches_loop self ignore_case regexp search_names 0
    end.

(** *** Dataset *)

(** [x['id'] == id1] for a string [id1] *)
Definition id_is (id1 : string) (x : record) : py bool :=
  match getitem x "id" with
  | Raise e => Raise e
  | Ok v => Ok (scalar_eq v (VStr id1))
  end.

(** [list(compress(data, I))] *)
Definition compress {A : Type} (data : list A) (sel : list bool) : list A :=
  map fst (filter (fun xb => Is_true (snd xb)) (zip data sel)).

Definition placeholder : record := [("id", VStr "None"); ("long", VStr "None")].

Definition warn_more_than_one (id1 : string) : string :=
  "Warning: more than one data with id " +:+ id1 +:+ " found inside the dataset".

Definition warn_no_data (id1 : string) : string :=
  "Warning: no data with id " +:+ id1 +:+ " found inside the dataset".

(** The loop of [Dataset.__init__] over [id_subset]; the state is
    [self._data] and the lines printed so far. *)
Fixpoint subset_loop (data : list record) (id_subset : list string)
  (self_data : list record) (printed : list string)
  : py (list record * list string) :=
  match id_subset with
  | [] => Ok (self_data, printed)
  | id1 :: rest =>
      match comprehension (id_is id1) data with
      | Raise e => Raise e
      | Ok sel =>
          if String.eqb id1 EmptyString then
            subset_loop data rest (self_data ++ [placeholder]) printed
          else if 1 <=? count_true sel then
            subset_loop data rest (self_data ++ compress data sel)
                        (if 1 <? count_true sel
                         then printed ++ [warn_more_than_one id1]
                         else printed)
          else if count_true sel =? 0 then
            subset_loop data rest self_data (printed ++ [warn_no_data id1])
          else
            subset_loop data rest self_data printed
      end
  end.

(** [Dataset.__init__]: [self._data] and the printed lines; [entries],
    [ids] and [longs] are left empty for the subclasses. *)
Definition Dataset_init (data : list record) (id_subset : option (list string))
  : py (Dataset * list string) :=
  if negb (forallb (has_key "id") data) then Raise AssertionError
  else
    match
      match id_subset with
      | None => Ok (data, [])
      | Some id_subset => subset_loop data id_subset [] []
      end
    with
    | Raise e => Raise e
    | Ok (self_data, printed) =>
        Ok ({| dataset_data := self_data; entries := []; ids := []; longs := [] |},
            printed)
    end.

(** [SerumEntry.__init__] and [AntigenEntry.__init__] add one attribute to
    the [Entry]. *)
Definition strain_id (data : record) : pyval :=
  if has_key "strain_id" data
  then match getitem data "strain_id" with Ok v => v | Raise _ => VNone end
  else VNone.

Definition parent_id (data : record) : pyval :=
  if has_key "parent_id" data
  then match getitem data "parent_id" with Ok v => v | Raise _ => VNone end
  else if has_key "wildtype" data
          && match getitem data "wildtype" with Ok v => truthy v | Raise _ => false end
       then match getitem data "id" with Ok v => v | Raise _ => VNone end
       else VNone.

(** [SerumDataset.__init__] and [AntigenDataset.__init__] up to the call of
    [general_health_check]: the entries are made from [self._data] in order
    and the attributes are assigned.  The constructors themselves, which go on
    with the health check, are [SerumDataset_init] and [AntigenDataset_init]
    below. *)
Definition subclass_init (data : list record) (id_subset : option (list string))
  : py (Dataset * list string) :=
  match Dataset_init data id_subset with
  | Raise e => Raise e
  | Ok (self, printed) =>
      match comprehension Entry_init (dataset_data self) with
      | Raise e => Raise e
      | Ok es =>
          Ok ({| dataset_data := dataset_data self;
                 entries := es;
                 ids := map id es;
                 longs := map long es |}, printed)
      end
  end.

Definition strain_ids (self : Dataset) : list pyval :=
  map (fun x => strain_id (_data x)) (entries self).

Definition parent_ids (self : Dataset) : list pyval :=
  map (fun x => parent_id (_data x)) (entries self).

(** [len(re.findall(value, search_value)) > 0]: [value] is the pattern and
    [search_value] the string searched; a pattern that is no string is a
    [TypeError]. *)
Definition findall_nonempty (value : pyval) (search_value : string) : py bool :=
  match value with
  | VStr pattern =>
      match re_compile false pattern with
      | Raise e => Raise e
      | Ok r => Ok (re_search r search_value)
      end
  | _ => Raise TypeError
  end.

(** [Dataset.get_entry] *)
Definition get_entry (self : Dataset) (search_value : string) (search_method : string)
  : py (list Entry) :=
  if negb (bool_decide (search_method ∈ ["id"; "long"])) then Raise AssertionError
  else
    let lookup_list :=
      if String.eqb search_method "id" then ids self else map VStr (longs self) in
    match indices_where (fun value => findall_nonempty value search_value)
                        (enumerate lookup_list) with
    | Raise e => Raise e
    | Ok Ix => Ok (take_indices (entries self) Ix)
    end.

(** [Dataset.deep_search] *)
Definition deep_search (self : Dataset) (search_value : string) (ignore_case : bool)
  : py (list Entry) :=
  match indices_where (fun entry => _deep_search entry search_value ignore_case false)
                      (enumerate (entries self)) with
  | Raise e => Raise e
  | Ok Ix => Ok (take_indices (entries self) Ix)
  end.

(** The array of hits of one pass of [aliased_search]. *)
Definition hits (self : Dataset) (search_name : string)
  (ignore_case refined regexp : bool) : py (list nat) :=
  comprehension
    (fun entry => _alias_search entry search_name ignore_case refined false regexp)
    (entries self).

(** [scores] are the values of [_alias_search] on the entries, in order. *)
Definition scored (self : Dataset) (search_name : string)
  (ignore_case refined regexp : bool) (scores : list nat) : Prop :=
  Forall2 (fun entry s =>
             _alias_search entry search_name ignore_case refined false regexp
             = Ok s)
          (entries self) scores.

(** [Dataset.aliased_search] *)
Definition aliased_search (self : Dataset) (search_name : string)
  (ignore_case regexp : bool) : py (list Entry) :=
  match hits self search_name ignore_case false regexp with
  | Raise e => Raise e
  | Ok I1 =>
      match np_max I1 with
      | Raise e => Raise e
      | Ok max_hits =>
          match (if max_hits <? 2
                 then hits self search_name ignore_case true regexp
                 else Ok I1) with
          | Raise e => Raise e
          | Ok I2 =>
              match np_max I2 with
              | Raise e => Raise e
              | Ok max_hits =>
                  if max_hits <? 2 then Ok []
                  else Ok (take_indices (entries self) (np_argwhere_eq I2 max_hits))
              end
          end
      end
  end.

(** *** The health check and the constructors of the subclasses *)

(** [re.findall(value, search_value)] when the query need not be a string:
    the pattern is compiled first, and searching something that is no string
    is a [TypeError]. *)
Definition findall_nonempty_val (value search_value : pyval) : py bool :=
  match value with
  | VStr pattern =>
      match re_compile false pattern with
      | Raise e => Raise e
      | Ok r =>
          match search_value with
          | VStr s => Ok (re_search r s)
          | _ => Raise TypeError
          end
      end
  | _ => Raise TypeError
  end.

(** [Dataset.get_entry] for such a query. *)
Definition get_entry_val (self : Dataset) (search_value : pyval) (search_method : string)
  : py (list Entry) :=
  if negb (bool_decide (search_method ∈ ["id"; "long"])) then Raise AssertionError
  else
    let lookup_list :=
      if String.eqb search_method "id" then ids self else map VStr (longs self) in
    match indices_where (fun value => findall_nonempty_val value search_value)
                        (enumerate lookup_list) with
    | Raise e => Raise e
    | Ok Ix => Ok (take_indices (entries self) Ix)
    end.

(** [len(set(l))]: a list or a dict cannot be hashed, and the other values
    are kept once for each class of equal values. *)
Definition hashable (v : pyval) : bool :=
  match v with
  | VList _ | VDict _ => false
  | _ => true
  end.

Fixpoint set_size (seen : list pyval) (l : list pyval) : py nat :=
  match l with
  | [] => Ok (length seen)
  | v :: l' =>
      if hashable v
      then set_size (if existsb (scalar_eq v) seen then seen else seen ++ [v]) l'
      else Raise TypeError
  end.

Definition is_str (v : pyval) : bool :=
  match v with
  | VStr _ => true
  | _ => false
  end.

(** The loop over the ids when some id occurs twice. *)
Fixpoint id_report_loop (self : Dataset) (todo : list pyval) (printed : list output)
  : py (list output) :=
  match todo with
  | [] => Ok printed
  | entry_id :: rest =>
      match get_entry_val self entry_id "id" with
      | Raise e => Raise e
      | Ok found =>
          id_report_loop self rest
            (if length found =? 1 then printed
             else printed ++ [EncounteredLine entry_id (length found)]
                          ++ map EntryLine found ++ [Line EmptyString])
      end
  end.

(** The loop over the long names when some long name occurs twice.  The
    entries that [get_entry] returns are distinct objects, and [deep_eq] on two
    [Entry] objects, which are neither strings nor dicts nor iterable, is
    [operator.eq], the identity of objects: the pairs compared are never equal
    and nothing is printed.  What is left of the loop is the lookup, which may
    raise. *)
Fixpoint long_report_loop (self : Dataset) (todo : list string) : py unit :=
  match todo with
  | [] => Ok tt
  | entry_long :: rest =>
      match get_entry self entry_long "long" with
      | Raise e => Raise e
      | Ok _ => long_report_loop self rest
      end
  end.

(** The loop over the ids that are no strings. *)
Fixpoint failed_ids_loop (self : Dataset) (failed_entries : list pyval)
  (printed : list output) : py (list output) :=
  match failed_entries with
  | [] => Ok printed
  | entry :: rest =>
      match get_entry_val self entry "id" with
      | Raise e => Raise e
      | Ok found => failed_ids_loop self rest (printed ++ [EntriesLine found])
      end
  end.

(** [Dataset.general_health_check]: what it prints when it returns.  The long
    names of constructed entries are strings, so its last block prints
    nothing. *)
Definition general_health_check (self : Dataset) : py (list output) :=
  match set_size [] (ids self) with
  | Raise e => Raise e
  | Ok distinct_ids =>
      match (if negb (length (ids self) =? distinct_ids)
             then id_report_loop self (ids self) []
             else Ok []) with
      | Raise e => Raise e
      | Ok printed =>
          match (if negb (length (longs self) =? length (remove_dups (longs self)))
                 then long_report_loop self (longs self)
                 else Ok tt) with
          | Raise e => Raise e
          | Ok _ =>
              let failed_entries := filter (fun x => negb (is_str x)) (ids self) in
              if 0 <? length failed_entries
              then
                match failed_ids_loop self failed_entries
                        (printed
                           ++ [Line "Following entries have ids which are not strings:"])
                with
                | Raise e => Raise e
                | Ok printed => Ok (printed ++ [Line EmptyString])
                end
              else Ok printed
          end
      end
  end.

(** [SerumDataset.__init__] and [AntigenDataset.__init__]: the attributes,
    then the health check; the lines of [Dataset.__init__] come first. *)
Definition subclass_init_checked (data : list record) (id_subset : option (list string))
  : py (Dataset * list output) :=
  match subclass_init data id_subset with
  | Raise e => Raise e
  | Ok (self, printed) =>
      match general_health_check self with
      | Raise e => Raise e
      | Ok checked => Ok (self, map Line printed ++ checked)
      end
  end.

Definition SerumDataset_init := subclass_init_checked.
Definition AntigenDataset_init := subclass_init_checked.

End Resolver.

(** [Dataset.get_all_fields] *)
Definition get_all_fields (self : Dataset) : gset string :=
  fold_left (fun all_fields entry =>
               all_fields ∪ list_to_set (map fst (properties entry)))
            (entries self) (list_to_set ["id"; "long"]).

End AntigenicDatabase.

(** ** Notions used to state the properties *)

(** [m] is the greatest, respectively the least, element of [l]. *)
Definition is_max (m : nat) (l : list nat) : Prop := m ∈ l /\ forall x, x ∈ l -> x <= m.
Definition is_min (m : nat) (l : list nat) : Prop := m ∈ l /\ forall x, x ∈ l -> m <= x.

(** The elements of [xs] whose entry in the parallel list [scores] is [m], in
    the order of [xs]. *)
Definition with_score {A : Type} (xs : list A) (scores : list nat) (m : nat) : list A :=
  map fst (filter (fun p => snd p = m) (zip xs scores)).

(** The items of a dict and of the dicts nested in it as values of items, an
    item before the items inside its value. *)
Fixpoint items_preorder (v : pyval) : list (string * pyval) :=
  match v with
  | VDict d =>
      (fix go (d : list (string * pyval)) : list (string * pyval) :=
         match d with
         | [] => []
         | (k, x) :: d' => (k, x) :: items_preorder x ++ go d'
         end) d
  | _ => []
  end.

(** The strings of a dict that are a value of an item or an element of a list
    that is a value of an item, in the dict itself or in a dict reached from
    it as such a value or element. *)
Fixpoint string_leaves (v : pyval) : list string :=
  match v with
  | VDict d =>
      (fix go (d : list (string * pyval)) : list string :=
         match d with
         | [] => []
         | (_, x) :: d' =>
             match x with
             | VStr s => [s]
             | VDict _ => string_leaves x
             | VList l =>
                 (fix elems (l : list pyval) : list string :=
                    match l with
                    | [] => []
                    | e :: l' =>
                        match e with
                        | VStr s => [s]
                        | VDict _ => string_leaves e
                        | _ => []
                        end ++ elems l'
                    end) l
             | _ => []
             end ++ go d'
         end) d
  | _ => []
  end.

(** [f] lists the members of a set of objects: each object of [xs] once, in
    some order. *)
Definition set_enumeration (f : list nat -> list nat) : Prop :=
  forall xs, NoDup (f xs) /\ forall x, x ∈ f xs <-> x ∈ xs.

(** The tokens of the pattern [[A-Z]\d{2,3}[A-Z]], every capital letter
    allowed, as the specification words the mutation pattern. *)
Definition capital_findall (s : string) : list string :=
  AntigenicDatabase.findall_from Str.is_upper 0 s.

(** The lookup as the specification words it: the query is the pattern, and
    the entries whose id (or long name) it matches are returned in order. *)
Definition get_entry_as_specified `{RE : ReEngine} (self : AntigenicDatabase.Dataset)
  (search_value search_method : string) : py (list AntigenicDatabase.Entry) :=
  match re_compile false search_value with
  | Raise e => Raise e
  | Ok r =>
      Ok (filter
            (fun entry =>
               Is_true
                 (if String.eqb search_method "id"
                  then match AntigenicDatabase.id entry with
                       | VStr s => re_search r s
                       | _ => false
                       end
                  else re_search r (AntigenicDatabase.long entry)))
            (AntigenicDatabase.entries self))
  end.

(** ** A reference engine for literal patterns

    The fragment of [re] without metacharacters other than a leading [^] and
    a trailing [$]: a pattern of the fragment matches where its text occurs,
    letters compared without case under [re.IGNORECASE].  The engine refuses
    every other pattern; it serves the closed examples below, whose patterns
    are all in the fragment. *)

Module LiteralRe.

Definition metachars : list ascii := list_ascii_of_string ".^$*+?{}[]\|()".

Definition is_literal (c : ascii) : bool := negb (existsb (Ascii.eqb c) metachars).

Fixpoint all_literal (s : string) : bool :=
  match s with
  | EmptyString => true
  | String c s' => is_literal c && all_literal s'
  end.

(** The pattern without a trailing [$], and whether it had one. *)
Fixpoint strip_dollar (s : string) : string * bool :=
  match s with
  | EmptyString => (EmptyString, false)
  | String c EmptyString =>
      if Ascii.eqb c "$" then (EmptyString, true) else (s, false)
  | String c s' => let '(t, b) := strip_dollar s' in (String c t, b)
  end.

Record pattern : Type := mkPattern {
  ignorecase : bool;
  at_start : bool;
  text : string;
  at_end : bool
}.

Definition compile (ignorecase : bool) (p : string) : py pattern :=
  let '(at_start, p1) :=
    match p with
    | String c p' => if Ascii.eqb c "^" then (true, p') else (false, p)
    | EmptyString => (false, p)
    end in
  let '(body, at_end) := strip_dollar p1 in
  if all_literal body
  then Ok {| ignorecase := ignorecase; at_start := at_start;
             text := body; at_end := at_end |}
  else Raise re_error.

Fixpoint is_suffix (sub s : string) : bool :=
  String.eqb sub s ||
  match s with
  | EmptyString => false
  | String _ s' => is_suffix sub s'
  end.

Definition search (r : pattern) (s : string) : bool :=
  let fold x := if ignorecase r then Str.upper x else x in
  match at_start r, at_end r with
  | true, true => String.eqb (fold (text r)) (fold s)
  | true, false => String.prefix (fold (text r)) (fold s)
  | false, true => is_suffix (fold (text r)) (fold s)
  | false, false => Str.contains (fold (text r)) (fold s)
  end.

Definition engine : ReEngine :=
  {| regex := pattern; re_compile := compile; re_search := search |}.

End LiteralRe.

(** ** Data for the closed examples *)

Module Examples.

Import AntigenicDatabase.

(** The directory of the scenario of the tests: [HK] and [HP]. *)
Definition hongkong_map : list (string * string) :=
  [("HK", "HONGKONG"); ("HP", "HONG-KONG")].

(** A directory in which one name is the beginning of another. *)
Definition hong_map : list (string * string) :=
  [("HG", "HONG"); ("HK", "HONGKONG")].

(** Two entries of the directory of [CityList.py], which gives the name
    [CHIANGMAI] to two codes. *)
Definition chiangmai_map : list (string * string) :=
  [("AP", "CHIANGMAI"); ("CM", "CHIANGMAI")].

(** Two enumerations of a set of objects: in the order of first occurrence,
    and in the opposite order. *)
Definition first_seen (xs : list nat) : list nat := remove_dups xs.
Definition last_seen (xs : list nat) : list nat := reverse (remove_dups xs).

Definition vietnam : record :=
  [("id", VStr "A1"); ("long", VStr "A/VIETNAM/1194/2004")].
Definition hongkong : record :=
  [("id", VStr "A2"); ("long", VStr "A/HONGKONG/213/2003"); ("clade", VStr "1")].

Definition vietnam_entry : Entry :=
  {| _data := vietnam; id := VStr "A1"; long := "A/VIETNAM/1194/2004";
     properties := []; short := "A/VIETNAM/1194/2004" |}.
Definition hongkong_entry : Entry :=
  {| _data := hongkong; id := VStr "A2"; long := "A/HONGKONG/213/2003";
     properties := [("clade", VStr "1")]; short := "A/HK/213/2003" |}.

Definition antigens : Dataset :=
  {| dataset_data := [vietnam; hongkong];
     entries := [vietnam_entry; hongkong_entry];
     ids := [VStr "A1"; VStr "A2"];
     longs := ["A/VIETNAM/1194/2004"; "A/HONGKONG/213/2003"] |}.

(** The dataset of the ids [A2], [B7], the empty string and [A1]. *)
Definition none_entry : Entry :=
  {| _data := placeholder; id := VStr "None"; long := "None"; properties := [];
     short := "None" |}.

Definition hongkong_none_vietnam : Dataset :=
  {| dataset_data := [hongkong; placeholder; vietnam];
     entries := [hongkong_entry; none_entry; vietnam_entry];
     ids := [VStr "A2"; VStr "None"; VStr "A1"];
     longs := ["A/HONGKONG/213/2003"; "None"; "A/VIETNAM/1194/2004"] |}.

(** The dataset of the ids [A1] and [A1]. *)
Definition vietnam_twice : Dataset :=
  {| dataset_data := [vietnam; vietnam];
     entries := [vietnam_entry; vietnam_entry];
     ids := [VStr "A1"; VStr "A1"];
     longs := ["A/VIETNAM/1194/2004"; "A/VIETNAM/1194/2004"] |}.

Definition abcde : record := [("id", VStr "X9"); ("long", VStr "ABCDE")].
Definition abcde_entry : Entry :=
  {| _data := abcde; id := VStr "X9"; long := "ABCDE"; properties := [];
     short := "ABCDE" |}.

Definition no_entries : Dataset :=
  {| dataset_data := []; entries := []; ids := []; longs := [] |}.

End Examples.

(** * Properties *)

(** ** Auxiliary facts *)


Lemma string_eqb_refl (s : string) : String.eqb s s = true.
Proof. apply String.eqb_refl. Qed.

Lemma count_true_repeat (n : nat) : count_true (repeat true n) = n.
Proof.
  unfold count_true. induction n as [|n IH]; [reflexivity|].
  change (repeat true (S n)) with (true :: repeat true n).
  rewrite filter_cons_True by exact Logic.I. simpl. now rewrite IH.
Qed.

Lemma comprehension_all {A B : Type} (f : A -> py B) (b : B) (xs : list A) :
  Forall (fun x => f x = Ok b) xs ->
  comprehension f xs = Ok (repeat b (length xs)).
Proof.
  induction 1 as [|x xs Hx _ IH]; simpl; [reflexivity|].
  now rewrite Hx, IH.
Qed.

Lemma insert_sorted_elem (k x : string) (l : list string) :
  x ∈ insert_sorted k l -> x = k \/ x ∈ l.
Proof.
  induction l as [|h t IH]; simpl.
  - intros ->%list_elem_of_singleton. now left.
  - destruct (String.leb k h).
    + intros [->|H]%elem_of_cons; [now left | now right].
    + intros [->|H]%elem_of_cons.
      * right. apply elem_of_cons. now left.
      * destruct (IH H) as [->|H']; [now left|].
        right. apply elem_of_cons. now right.
Qed.

Lemma sorted_elem (x : string) (l : list string) : x ∈ sorted l -> x ∈ l.
Proof.
  induction l as [|h t IH]; simpl; [trivial|].
  intros [->|H]%insert_sorted_elem; apply elem_of_cons; [now left|right; auto].
Qed.

(** ** deep_eq *)

Lemma _deep_iter_eq_refl (l : list pyval) :
  Forall (fun v => tools.deep_eq v v = Ok true) l ->
  tools._deep_iter_eq (map tools.deep_eq l) l = Ok true.
Proof.
  intros H. unfold tools._deep_iter_eq.
  rewrite length_map, Nat.eqb_refl. simpl.
  rewrite (comprehension_all _ true).
  - rewrite count_true_repeat, length_zip, length_map, Nat.min_id.
    now rewrite Nat.eqb_refl.
  - clear -H. induction H as [|v l Hv _ IH]; simpl; constructor; auto.
Qed.

Lemma lookup_cmp_getitem (d : record) (k : string) :
  k ∈ map fst d ->
  exists v, v ∈ map snd d
            /\ tools.lookup_cmp (map (fun kv => (fst kv, tools.deep_eq (snd kv))) d) k
               = Some (tools.deep_eq v)
            /\ getitem d k = Ok v.
Proof.
  induction d as [|[k' v'] d IH]; simpl.
  - intros H. inversion H.
  - intros H. destruct (String.eqb k' k) eqn:E.
    + exists v'. split; [apply elem_of_cons; now left | auto].
    + apply elem_of_cons in H as [->|H]; [now rewrite string_eqb_refl in E|].
      destruct (IH H) as (v & Hv & H1 & H2).
      exists v. split; [apply elem_of_cons; now right | auto].
Qed.

Lemma _deep_dict_eq_refl (d : record) :
  Forall (fun kv => tools.deep_eq (snd kv) (snd kv) = Ok true) d ->
  tools._deep_dict_eq (map (fun kv => (fst kv, tools.deep_eq (snd kv))) d) d = Ok true.
Proof.
  intros H. unfold tools._deep_dict_eq.
  rewrite map_map. simpl.
  rewrite bool_decide_eq_true_2 by reflexivity. simpl.
  rewrite (comprehension_all _ true).
  - now rewrite count_true_repeat, Nat.eqb_refl.
  - apply Forall_forall. intros k Hk%sorted_elem.
    destruct (lookup_cmp_getitem d k Hk) as (v & Hv & -> & ->).
    rewrite Forall_forall in H.
    apply list_elem_of_fmap in Hv as (kv & -> & Hkv). now apply H.
Qed.

(** X1. Reflexivity, the half of the stated algebra of [deep_eq] that the
    code has: a value is deep-equal to itself, and the comparison does not
    raise. *)
Theorem deep_eq_refl (x : pyval) : tools.deep_eq x x = Ok true.
Proof.
  induction x as [| b | z | s | l IH | d IH] using pyval_nested_ind; simpl.
  - reflexivity.
  - now destruct b.
  - now rewrite Z.eqb_refl.
  - now rewrite string_eqb_refl.
  - now apply _deep_iter_eq_refl.
  - now apply _deep_dict_eq_refl.
Qed.

(** C5. [deep_eq] is not symmetric, and a string in the second position is not
    an atomic scalar: against the list [['a', 'b']] the string ['ab'] is
    taken apart into its characters and found equal, while with the arguments
    exchanged the guard on strings answers [False]; a list against a dict is
    compared with the keys, and a dict against a list raises. *)
Theorem deep_eq_asymmetric :
  tools.deep_eq (VList [VStr "a"; VStr "b"]) (VStr "ab") = Ok true
  /\ tools.deep_eq (VStr "ab") (VList [VStr "a"; VStr "b"]) = Ok false
  /\ tools.deep_eq (VList [VStr "a"]) (VDict [("a", VInt 1)]) = Ok true
  /\ tools.deep_eq (VDict [("a", VInt 1)]) (VList [VStr "a"]) = Raise AttributeError.
Proof. repeat split; reflexivity. Qed.

(** ** Alias generation *)

Lemma aliases_loop_pairs (name0 : string) (chars : list string) :
  aliases_loop name0 chars
  = flat_map (fun p => if Str.contains (fst p) name0
                       then [Str.replace (fst p) (snd p) name0] else [])
             (later_pairs chars).
Proof.
  induction chars as [|char1 later IH]; simpl; [reflexivity|].
  rewrite flat_map_app, <- IH. f_equal.
  unfold aliases_of_char. induction (later ++ [EmptyString]) as [|c l IHl]; simpl; [reflexivity|].
  now rewrite IHl.
Qed.

(** X5. What the code generates: the upper-cased name, then one variant for
    each pair of [later_pairs replace_chars] whose first separator occurs in
    it. *)
Theorem generate_city_aliases_pairs (name alias : string) :
  alias ∈ generate_city_aliases name <->
  alias = Str.upper name
  \/ exists char1 char2,
       (char1, char2) ∈ later_pairs replace_chars
       /\ Str.contains char1 (Str.upper name) = true
       /\ alias = Str.replace char1 char2 (Str.upper name).
Proof.
  unfold generate_city_aliases. rewrite elem_of_cons, aliases_loop_pairs.
  apply or_iff_compat_l. rewrite list_elem_of_In, in_flat_map. split.
  - intros ([c1 c2] & Hin & Hal). simpl in Hal.
    destruct (Str.contains c1 (Str.upper name)) eqn:E; [|now destruct Hal].
    destruct Hal as [<-|[]]. exists c1, c2. now rewrite list_elem_of_In.
  - intros (c1 & c2 & Hin & Hc & ->). exists (c1, c2).
    rewrite <- list_elem_of_In. split; [assumption|]. simpl. rewrite Hc. now left.
Qed.

(** C3. A name with ['_'] does not get the variant with ['_'] replaced by
    ['-']: the second separator of a pair is taken from the separators that
    follow the first one in [['-', '_', ' ', '/']], so [HONG_KONG] has the
    aliases [HONG KONG], [HONG/KONG] and [HONGKONG] but not [HONG-KONG], the
    alias that the docstring of the module announces for it. *)
Theorem generate_city_aliases_misses_earlier_separator :
  generate_city_aliases "HONG_KONG"
  = ["HONG_KONG"; "HONG KONG"; "HONG/KONG"; "HONGKONG"]
  /\ Str.contains "_" (Str.upper "HONG_KONG") = true
  /\ Str.replace "_" "-" (Str.upper "HONG_KONG") = "HONG-KONG"
  /\ ("HONG-KONG" ∉ generate_city_aliases "HONG_KONG")
  /\ (("_", "-") ∉ later_pairs replace_chars).
Proof.
  repeat split; try reflexivity.
  - intros H. vm_compute in H. repeat (apply elem_of_cons in H as [H|H]; [discriminate|]).
    inversion H.
  - intros H. vm_compute in H. repeat (apply elem_of_cons in H as [H|H]; [discriminate|]).
    inversion H.
Qed.

(** ** Single-place match *)

(** C4 (as amended). Without aliasing [match] expands no alias, but it does
    not compare for equality either: the query, between [^] and [$] when
    [exact_match] is set, is compiled as a case-insensitive regular expression
    and searched in the canonical name, and [match] is true exactly when that
    search finds a match; an ill-formed pattern raises. *)
Theorem City_match_no_aliasing `{RE : ReEngine}
  (self : City) (query : string) (exact_match : bool) :
  City_match self query false exact_match
  = match re_compile true (if exact_match then "^" +:+ query +:+ "$" else query) with
    | Raise e => Raise e
    | Ok regexp => Ok (re_search regexp (name self))
    end.
Proof.
  unfold City_match. simpl.
  destruct (re_compile true _) as [regexp|e]; [|reflexivity].
  rewrite orb_false_r. now destruct (re_search regexp (name self)).
Qed.

(** C4, the claim as stated fails: the query [HONGK], and the query
    [hongkong], match the place [HONGKONG] without aliasing although neither
    is equal to the canonical name. *)
Lemma no_aliasing_match_is_not_equality :
  let hongkong := City_init "HONGKONG" "HK" in
  City_match (RE := LiteralRe.engine) hongkong "HONGK" false false = Ok true
  /\ "HONGK" <> name hongkong
  /\ City_match (RE := LiteralRe.engine) hongkong "hongkong" false false = Ok true
  /\ "hongkong" <> name hongkong.
Proof. repeat split; (reflexivity || discriminate). Qed.

(** ** Reductions and comprehensions *)

Lemma comprehension_Forall2 {A B : Type} (f : A -> py B) (xs : list A) (ys : list B) :
  comprehension f xs = Ok ys <-> Forall2 (fun x y => f x = Ok y) xs ys.
Proof.
  revert ys. induction xs as [|x xs IH]; intros ys; simpl.
  - split; [intros [= <-]; constructor | intros H; inversion H; reflexivity].
  - split.
    + destruct (f x) as [y|e] eqn:E; [|discriminate].
      destruct (comprehension f xs) as [ys'|e]; [|discriminate].
      intros [= <-]. constructor; [assumption | now apply IH].
    + intros H. inversion H as [|? y ? ys' Hx Hxs]; subst.
      rewrite Hx. apply IH in Hxs. now rewrite Hxs.
Qed.

Lemma comprehension_total {A B : Type} (f : A -> py B) (P : A -> B -> Prop) (xs : list A) :
  (forall x, x ∈ xs -> exists y, f x = Ok y /\ P x y) ->
  exists ys, comprehension f xs = Ok ys /\ Forall2 P xs ys.
Proof.
  induction xs as [|x xs IH]; intros H; simpl.
  - exists []. split; [reflexivity | constructor].
  - destruct (H x) as (y & Hy & HP); [apply elem_of_cons; now left|].
    destruct IH as (ys & Hys & HF).
    { intros x' Hx'. apply H, elem_of_cons. now right. }
    exists (y :: ys). rewrite Hy, Hys. split; [reflexivity | now constructor].
Qed.

Lemma fold_max_spec (l : list nat) (x : nat) :
  is_max (fold_left Nat.max l x) (x :: l).
Proof.
  revert x. induction l as [|y l IH]; intros x; simpl.
  - split; [apply elem_of_cons; now left|].
    intros z ->%list_elem_of_singleton. lia.
  - destruct (IH (Nat.max x y)) as [Hin Hle]. split.
    + apply elem_of_cons in Hin as [Hin|Hin].
      * rewrite Hin. destruct (Nat.max_spec x y) as [[_ ->]|[_ ->]].
        -- apply elem_of_cons. right. apply elem_of_cons. now left.
        -- apply elem_of_cons. now left.
      * apply elem_of_cons. right. apply elem_of_cons. now right.
    + intros z Hz.
      assert (Nat.max x y <= fold_left Nat.max l (Nat.max x y))
        by (apply Hle, elem_of_cons; now left).
      apply elem_of_cons in Hz as [Hz|Hz]; [subst; lia|].
      apply elem_of_cons in Hz as [Hz|Hz]; [subst; lia|].
      apply Hle, elem_of_cons. now right.
Qed.

Lemma fold_min_spec (l : list nat) (x : nat) :
  is_min (fold_left Nat.min l x) (x :: l).
Proof.
  revert x. induction l as [|y l IH]; intros x; simpl.
  - split; [apply elem_of_cons; now left|].
    intros z ->%list_elem_of_singleton. lia.
  - destruct (IH (Nat.min x y)) as [Hin Hle]. split.
    + apply elem_of_cons in Hin as [Hin|Hin].
      * rewrite Hin. destruct (Nat.min_spec x y) as [[_ ->]|[_ ->]].
        -- apply elem_of_cons. now left.
        -- apply elem_of_cons. right. apply elem_of_cons. now left.
      * apply elem_of_cons. right. apply elem_of_cons. now right.
    + intros z Hz.
      assert (fold_left Nat.min l (Nat.min x y) <= Nat.min x y)
        by (apply Hle, elem_of_cons; now left).
      apply elem_of_cons in Hz as [Hz|Hz]; [subst; lia|].
      apply elem_of_cons in Hz as [Hz|Hz]; [subst; lia|].
      apply Hle, elem_of_cons. now right.
Qed.

Lemma np_max_spec (l : list nat) :
  l <> [] -> exists m, np_max l = Ok m /\ is_max m l.
Proof.
  destruct l as [|x l]; [congruence|]. intros _.
  exists (fold_left Nat.max l x). split; [reflexivity | apply fold_max_spec].
Qed.

Lemma py_min_spec (l : list nat) :
  l <> [] -> exists m, py_min l = Ok m /\ is_min m l.
Proof.
  destruct l as [|x l]; [congruence|]. intros _.
  exists (fold_left Nat.min l x). split; [reflexivity | apply fold_min_spec].
Qed.

Lemma take_indices_argwhere_from {A : Type} (pre rest : list A) (a : list nat) (v : nat) :
  length rest = length a ->
  take_indices (pre ++ rest) (argwhere_from (length pre) v a) = with_score rest a v.
Proof.
  revert pre rest. induction a as [|x a IH]; intros pre rest Hlen.
  - destruct rest; [reflexivity | discriminate].
  - destruct rest as [|r rest]; [discriminate|]. simpl in Hlen.
    assert (Hrec : take_indices (pre ++ r :: rest) (argwhere_from (S (length pre)) v a)
                   = with_score rest a v).
    { specialize (IH (pre ++ [r]) rest).
      rewrite length_app, Nat.add_1_r, <- app_assoc in IH. apply IH. lia. }
    unfold with_score in *. simpl.
    destruct (Nat.eqb_spec x v) as [->|Hne].
    + rewrite filter_cons_True by reflexivity. simpl.
      unfold take_indices at 1. simpl.
      rewrite lookup_app_r by lia. rewrite Nat.sub_diag. simpl.
      f_equal. exact Hrec.
    + rewrite filter_cons_False by (simpl; congruence). exact Hrec.
Qed.

Lemma take_indices_argwhere {A : Type} (l : list A) (a : list nat) (v : nat) :
  length l = length a ->
  take_indices l (np_argwhere_eq a v) = with_score l a v.
Proof. intros H. apply (take_indices_argwhere_from [] l a v H). Qed.

Lemma with_score_elem {A : Type} (xs : list A) (scores : list nat) (m : nat) :
  length xs = length scores -> m ∈ scores -> with_score xs scores m <> [].
Proof.
  revert xs. induction scores as [|s scores IH]; intros xs Hlen Hin.
  - inversion Hin.
  - destruct xs as [|x xs]; [discriminate|]. unfold with_score in *. simpl.
    destruct (decide (s = m)) as [->|Hne].
    + rewrite filter_cons_True by reflexivity. discriminate.
    + rewrite filter_cons_False by (simpl; congruence).
      apply elem_of_cons in Hin as [->|Hin]; [congruence|].
      apply IH; [simpl in Hlen; lia | assumption].
Qed.

(** ** Scoring without regular expressions

    With [regexp=False] the search compares strings for equality and compiles
    no pattern: the first pass of [aliased_search] always has its scores. *)

Lemma dict_search_literal_returns `{RE : ReEngine}
  (dictionary : pyval) (search_value : string) (ignore_case : bool) :
  exists b, tools.dict_search_val dictionary search_value ignore_case false = Ok b.
Proof.
  pose (P := fun v => exists b, tools.dict_search_val v search_value ignore_case false = Ok b).
  enough (H : P dictionary
              /\ match dictionary with VList l => Forall P l | _ => True end)
    by apply H.
  induction dictionary as [| b | z | s | l IH | d IH] using pyval_nested_ind;
    try (split; [now exists false | exact Logic.I]).
  - split; [now exists false|].
    eapply Forall_impl; [exact IH|]. now intros v [H _].
  - split; [|exact Logic.I]. unfold P. cbn.
    induction IH as [|[key lookup_values] d [Hv Hl] _ IHd]; [now exists false|].
    cbn in Hv, Hl.
    assert (Hvalue : exists b,
               match lookup_values with
               | VList l =>
                   (fix values_loop (l : list pyval) : py bool :=
                      match l with
                      | [] => Ok false
                      | lookup_value :: l' =>
                          match
                            match lookup_value with
                            | VDict _ =>
                                tools.dict_search_val lookup_value search_value
                                                      ignore_case false
                            | VStr s =>
                                Ok (String.eqb
                                      (if ignore_case then Str.upper search_value
                                       else search_value)
                                      (if ignore_case then Str.upper s else s))
                            | _ => Ok false
                            end
                          with
                          | Raise e => Raise e
                          | Ok true => Ok true
                          | Ok false => values_loop l'
                          end
                      end) l
               | VDict _ =>
                   tools.dict_search_val lookup_values search_value ignore_case false
               | VStr s =>
                   Ok (String.eqb
                         (if ignore_case then Str.upper search_value else search_value)
                         (if ignore_case then Str.upper s else s))
               | _ => Ok false
               end = Ok b).
    { destruct lookup_values as [| b | z | s | l | d']; eauto.
      clear Hv IHd. induction Hl as [|v l Hv' _ IHl]; [eauto|].
      destruct v as [| b | z | s | l0 | d0]; try exact IHl.
      - destruct (String.eqb _ _); [eauto | exact IHl].
      - destruct Hv' as ([|] & ->); [eauto | exact IHl]. }
    destruct Hvalue as ([|] & Hb); rewrite Hb; [eauto | exact IHd].
Qed.

Lemma matches_loop_literal_returns `{RE : ReEngine}
  (self : AntigenicDatabase.Entry) (ignore_case : bool)
  (search_names : list string) (matches : nat) :
  exists n,
    AntigenicDatabase.matches_loop self ignore_case false search_names matches = Ok n.
Proof.
  revert matches. induction search_names as [|nm rest IH]; intros matches;
    cbn [AntigenicDatabase.matches_loop]; [eauto|].
  destruct (AntigenicDatabase.informative nm); [|apply IH].
  unfold AntigenicDatabase._deep_search, tools.dict_search.
  destruct (dict_search_literal_returns
              (VDict (AntigenicDatabase._data self)) nm ignore_case) as (b & ->).
  apply IH.
Qed.

(** The first pass returns its scores for every dataset and query when
    [regexp] is false. *)
Lemma first_pass_literal_returns `{RE : ReEngine}
  (city_map : list (string * string)) (self : AntigenicDatabase.Dataset)
  (search_name : string) (ignore_case : bool) :
  exists I1, AntigenicDatabase.scored city_map self search_name ignore_case false false I1.
Proof.
  destruct (comprehension_total
              (fun entry => AntigenicDatabase._alias_search city_map entry search_name
                              ignore_case false false false)
              (fun entry s => AntigenicDatabase._alias_search city_map entry search_name
                                ignore_case false false false = Ok s)
              (AntigenicDatabase.entries self)) as (I1 & _ & HF); [|eauto].
  intros entry _. unfold AntigenicDatabase._alias_search.
  destruct (_ && _); [eauto|].
  destruct (matches_loop_literal_returns entry ignore_case (Str.split "/" search_name) 0)
    as (n & Hn). eauto.
Qed.

(** ** Dataset-wide fuzzy resolution *)

Section AliasedSearch.

Import AntigenicDatabase.
Context {RE : ReEngine}.
Variable city_map : list (string * string).

Lemma hits_scored self search_name ignore_case refined regexp scores :
  hits city_map self search_name ignore_case refined regexp = Ok scores
  <-> scored city_map self search_name ignore_case refined regexp scores.
Proof. apply comprehension_Forall2. Qed.

Lemma scored_length self search_name ignore_case refined regexp scores :
  scored city_map self search_name ignore_case refined regexp scores ->
  length (entries self) = length scores.
Proof. apply Forall2_length. Qed.

(** C1. On a dataset with entries whose first pass yields the scores [I1]
    with maximum [best1]: if [best1] is at least 2 the result is the entries
    that scored [best1], in order, and the refined pass plays no part; if
    [best1] is below 2 and the refined pass yields [I2] with maximum
    [best2], the result is empty when [best2] is below 2 and otherwise the
    entries that scored [best2], in order.  Every result that is returned
    is empty or is the non-empty list of the entries sharing a maximal score
    of at least 2. *)
Theorem aliased_search_two_pass
  (self : Dataset) (search_name : string) (ignore_case regexp : bool)
  (I1 : list nat) :
  entries self <> [] ->
  scored city_map self search_name ignore_case false regexp I1 ->
  exists best1,
    is_max best1 I1
    /\ (2 <= best1 ->
        aliased_search city_map self search_name ignore_case regexp
        = Ok (with_score (entries self) I1 best1))
    /\ (best1 < 2 ->
        forall I2, scored city_map self search_name ignore_case true regexp I2 ->
        exists best2,
          is_max best2 I2
          /\ (best2 < 2 ->
              aliased_search city_map self search_name ignore_case regexp = Ok [])
          /\ (2 <= best2 ->
              aliased_search city_map self search_name ignore_case regexp
              = Ok (with_score (entries self) I2 best2)))
    /\ (forall found,
          aliased_search city_map self search_name ignore_case regexp = Ok found ->
          found = []
          \/ exists scores best,
               (scored city_map self search_name ignore_case false regexp scores
                \/ scored city_map self search_name ignore_case true regexp scores)
               /\ is_max best scores /\ 2 <= best
               /\ found = with_score (entries self) scores best
               /\ found <> []).
Proof.
  intros Hne H1.
  pose proof (scored_length _ _ _ _ _ _ H1) as Hlen1.
  assert (HI1 : I1 <> []) by (destruct I1; [destruct (entries self); [congruence|discriminate]|discriminate]).
  destruct (np_max_spec I1 HI1) as (best1 & Hmax1 & Hbest1).
  exists best1. split; [assumption|].
  unfold aliased_search. apply hits_scored in H1 as Hh1. rewrite Hh1, Hmax1.
  destruct (Nat.ltb_spec best1 2) as [Hlt|Hge].
  - split; [lia|]. split.
    + intros _ I2 H2.
      pose proof (scored_length _ _ _ _ _ _ H2) as Hlen2.
      assert (HI2 : I2 <> [])
        by (destruct I2; [destruct (entries self); [congruence|discriminate]|discriminate]).
      destruct (np_max_spec I2 HI2) as (best2 & Hmax2 & Hbest2).
      exists best2. split; [assumption|].
      apply hits_scored in H2 as ->. rewrite Hmax2.
      destruct (Nat.ltb_spec best2 2); split; try lia; intros _; [reflexivity|].
      now rewrite take_indices_argwhere.
    + intros found.
      destruct (hits city_map self search_name ignore_case true regexp) as [I2|e] eqn:Hh2;
        [|discriminate].
      apply hits_scored in Hh2 as H2.
      pose proof (scored_length _ _ _ _ _ _ H2) as Hlen2.
      destruct (np_max I2) as [best2|e] eqn:Hmax2; [|discriminate].
      assert (HI2 : I2 <> []) by (intros ->; discriminate).
      destruct (np_max_spec I2 HI2) as (b & Hb & Hbest2).
      rewrite Hmax2 in Hb. injection Hb as <-.
      destruct (Nat.ltb_spec best2 2); intros [= <-]; [now left|right].
      exists I2, best2. rewrite take_indices_argwhere by assumption.
      repeat split; auto; try apply Hbest2.
      apply with_score_elem; [assumption | apply Hbest2].
  - split.
    + intros _. rewrite Hmax1.
      destruct (Nat.ltb_spec best1 2); [lia|]. now rewrite take_indices_argwhere.
    + split; [lia|]. intros found. rewrite Hmax1.
      destruct (Nat.ltb_spec best1 2); [lia|]. intros [= <-]. right.
      exists I1, best1. rewrite take_indices_argwhere by assumption.
      repeat split; auto; try apply Hbest1.
      apply with_score_elem; [assumption | apply Hbest1].
Qed.

(** C9. On a dataset without entries [aliased_search] raises the
    [ValueError] of [np.max] on an empty array; it does not return the
    empty list. *)
Theorem aliased_search_no_entries
  (self : Dataset) (search_name : string) (ignore_case regexp : bool) :
  entries self = [] ->
  aliased_search city_map self search_name ignore_case regexp = Raise ValueError
  /\ aliased_search city_map self search_name ignore_case regexp <> Ok [].
Proof.
  intros H. unfold aliased_search, hits. rewrite H. simpl. split; [reflexivity|discriminate].
Qed.

End AliasedSearch.

Example antigens_constructed :
  AntigenicDatabase.AntigenDataset_init (RE := LiteralRe.engine)
    Examples.hongkong_map Examples.first_seen
    [Examples.vietnam; Examples.hongkong] None
  = Ok (Examples.antigens, []).
Proof. vm_compute. reflexivity. Qed.

Lemma aliased_search_two_pass_witness :
  AntigenicDatabase.entries Examples.antigens <> []
  /\ AntigenicDatabase.scored (RE := LiteralRe.engine) Examples.hongkong_map
       Examples.antigens "A/VIETNAM/1194/2004" true false true [3; 0]
  /\ AntigenicDatabase.aliased_search (RE := LiteralRe.engine) Examples.hongkong_map
       Examples.antigens "A/VIETNAM/1194/2004" true true
     = Ok [Examples.vietnam_entry].
Proof.
  assert (H1 : AntigenicDatabase.entries Examples.antigens <> []) by discriminate.
  assert (H2 : AntigenicDatabase.scored (RE := LiteralRe.engine) Examples.hongkong_map
                 Examples.antigens "A/VIETNAM/1194/2004" true false true [3; 0])
    by (repeat (constructor; [vm_compute; reflexivity|]); constructor).
  split; [exact H1|]. split; [exact H2|].
  destruct (aliased_search_two_pass (RE := LiteralRe.engine) Examples.hongkong_map
              Examples.antigens "A/VIETNAM/1194/2004" true true [3; 0] H1 H2)
    as (best1 & Hmax & Hge & _).
  assert (best1 = 3) as ->.
  { destruct Hmax as [Hin Hle]. specialize (Hle 3 ltac:(apply elem_of_cons; now left)).
    apply elem_of_cons in Hin as [->|Hin]; [reflexivity|].
    apply list_elem_of_singleton in Hin. lia. }
  rewrite Hge by lia. reflexivity.
Defined.

Lemma aliased_search_no_entries_witness :
  AntigenicDatabase.entries Examples.no_entries = []
  /\ AntigenicDatabase.aliased_search (RE := LiteralRe.engine) Examples.hongkong_map
       Examples.no_entries "A/VIETNAM/1194/2004" true true = Raise ValueError.
Proof.
  split; [reflexivity|].
  apply (aliased_search_no_entries (RE := LiteralRe.engine) Examples.hongkong_map
           Examples.no_entries "A/VIETNAM/1194/2004" true true).
  reflexivity.
Defined.

(** ** Directory edit-distance search *)

Lemma Qltb_spec (x y : Q) : Qltb x y = true <-> (x < y)%Q.
Proof.
  unfold Qltb. rewrite negb_true_iff. split.
  - intros H. apply Qnot_le_lt. intros Hle. apply Qle_bool_iff in Hle. congruence.
  - intros H. destruct (Qle_bool y x) eqn:E; [|reflexivity].
    apply Qle_bool_iff in E. exfalso. exact (Qlt_not_le _ _ H E).
Qed.

Lemma City_ematch_init (city_map : list (string * string)) (city : City)
  (query : string) (aliasing : bool) :
  city ∈ cities (CityList_init city_map) ->
  exists d, City_ematch city query aliasing = Ok d
            /\ is_min d (map (fun x => ed_eval x query)
                             (if aliasing then aliases city else [name city])).
Proof.
  intros Hin. apply py_min_spec.
  destruct aliasing; [|discriminate].
  simpl in Hin. apply list_elem_of_fmap in Hin as ([a n] & -> & _). discriminate.
Qed.

(** C8. On a directory with at least one place, every place has a distance to
    the query, the least edit distance to its aliases (to its name alone
    without aliasing); with [m] the least of these distances, [esearch]
    returns the places at distance [m], in order, together with [m] when
    [m < len(query)/2], and the empty list with [len(query)/2] otherwise.  A
    non-empty result is never reported with a distance of half the length of
    the query or more. *)
Theorem esearch_threshold
  (city_map : list (string * string)) (query : string) (aliasing : bool) :
  city_map <> [] ->
  let self := CityList_init city_map in
  let half := (Q_of_nat (String.length query) / 2)%Q in
  exists (dists : list nat) (m : nat),
    Forall2 (fun city d =>
               is_min d (map (fun x => ed_eval x query)
                             (if aliasing then aliases city else [name city])))
            (cities self) dists
    /\ is_min m dists
    /\ ((Q_of_nat m < half)%Q ->
        CityList_esearch self query aliasing
        = Ok (with_score (cities self) dists m, Q_of_nat m)
        /\ with_score (cities self) dists m <> [])
    /\ (~ (Q_of_nat m < half)%Q ->
        CityList_esearch self query aliasing = Ok ([], half))
    /\ (forall found d,
          CityList_esearch self query aliasing = Ok (found, d) ->
          found <> [] -> (d < half)%Q).
Proof.
  intros Hne self half.
  destruct (comprehension_total
              (fun city => City_ematch city query aliasing)
              (fun city d =>
                 City_ematch city query aliasing = Ok d
                 /\ is_min d (map (fun x => ed_eval x query)
                                  (if aliasing then aliases city else [name city])))
              (cities self)) as (dists & Hcomp & HF).
  { intros city Hin. destruct (City_ematch_init city_map city query aliasing Hin)
      as (d & Hd & Hmin). eauto. }
  pose proof (Forall2_length _ _ _ HF) as Hlen.
  assert (Hd : dists <> []).
  { destruct dists; [|discriminate]. destruct city_map; [congruence|discriminate]. }
  destruct (py_min_spec dists Hd) as (m & Hm & Hmin).
  exists dists, m. split.
  { eapply Forall2_impl; [exact HF|]. now intros city d [_ H]. }
  split; [assumption|].
  unfold CityList_esearch. rewrite Hcomp. unfold np_min. rewrite Hm. fold half.
  destruct (Qltb (Q_of_nat m) half) eqn:E.
  - apply Qltb_spec in E. rewrite take_indices_argwhere by assumption.
    split; [|split].
    + intros _. split; [reflexivity|]. apply with_score_elem; [assumption | apply Hmin].
    + intros H. now destruct H.
    + intros found d [= <- <-] _. exact E.
  - assert (~ (Q_of_nat m < half)%Q) as Hn.
    { intros H. apply Qltb_spec in H. congruence. }
    split; [|split].
    + intros H. now destruct Hn.
    + reflexivity.
    + intros found d [= <- <-] H. now destruct H.
Qed.

Lemma esearch_threshold_witness :
  Examples.hongkong_map <> []
  /\ exists (dists : list nat) (m : nat),
       is_min m dists
       /\ forall found d,
            CityList_esearch (CityList_init Examples.hongkong_map) "KINGKONG" true
            = Ok (found, d) ->
            found <> [] -> (d < Q_of_nat (String.length "KINGKONG") / 2)%Q.
Proof.
  assert (H : Examples.hongkong_map <> []) by discriminate.
  split; [exact H|].
  destruct (esearch_threshold Examples.hongkong_map "KINGKONG" true H)
    as (dists & m & _ & Hmin & _ & _ & Hfound).
  exists dists, m. split; [exact Hmin | exact Hfound].
Defined.

(** The scenario of the tests: [KINGKONG] is at distance 2 of both places with
    aliasing, and of [HONGKONG] alone without. *)
Example esearch_kingkong :
  let self := CityList_init Examples.hongkong_map in
  CityList_esearch self "KINGKONG" true = Ok (cities self, Q_of_nat 2)
  /\ CityList_esearch self "KINGKONG" false = Ok (take 1 (cities self), Q_of_nat 2)
  /\ CityList_esearch self "KIN" false = Ok ([], 3 # 2).
Proof. repeat split; vm_compute; reflexivity. Qed.

(** ** Dataset construction *)

Section DatasetInit.

Import AntigenicDatabase.

Lemma subset_loop_acc (data : list record) (id_subset : list string)
  (self_data : list record) (printed : list string) :
  subset_loop data id_subset self_data printed
  = match subset_loop data id_subset [] [] with
    | Raise e => Raise e
    | Ok (d, p) => Ok (self_data ++ d, printed ++ p)
    end.
Proof.
  revert self_data printed.
  induction id_subset as [|id1 rest IH]; intros self_data printed; cbn [subset_loop].
  - now rewrite !app_nil_r.
  - destruct (comprehension (id_is id1) data) as [sel|e]; [|reflexivity].
    destruct (String.eqb id1 EmptyString).
    { rewrite (IH (self_data ++ _)), (IH ([] ++ _)).
      destruct (subset_loop data rest [] []) as [[d p]|e]; [|reflexivity].
      now rewrite !app_nil_l, !app_assoc. }
    destruct (1 <=? count_true sel).
    { rewrite (IH (self_data ++ _)), (IH ([] ++ _)).
      destruct (subset_loop data rest [] []) as [[d p]|e]; [|reflexivity].
      destruct (1 <? count_true sel); now rewrite !app_nil_l, !app_assoc. }
    destruct (count_true sel =? 0).
    { rewrite (IH _ (printed ++ _)), (IH _ ([] ++ _)).
      destruct (subset_loop data rest [] []) as [[d p]|e]; [|reflexivity].
      now rewrite !app_nil_l, !app_assoc. }
    apply IH.
Qed.

Lemma subset_loop_app (data : list record) (pre post : list string) :
  subset_loop data (pre ++ post) [] []
  = match subset_loop data pre [] [] with
    | Raise e => Raise e
    | Ok (d, p) => subset_loop data post d p
    end.
Proof.
  assert (H : forall self_data printed,
             subset_loop data (pre ++ post) self_data printed
             = match subset_loop data pre self_data printed with
               | Raise e => Raise e
               | Ok (d, p) => subset_loop data post d p
               end); [|apply H].
  induction pre as [|id1 rest IH]; intros self_data printed; cbn [subset_loop app];
    [reflexivity|].
  destruct (comprehension (id_is id1) data) as [sel|e]; [|reflexivity].
  destruct (String.eqb id1 EmptyString); [apply IH|].
  destruct (1 <=? count_true sel); [apply IH|].
  destruct (count_true sel =? 0); apply IH.
Qed.

Lemma id_is_total (data : list record) (id1 : string) :
  forallb (has_key "id") data = true ->
  exists sel, comprehension (id_is id1) data = Ok sel.
Proof.
  intros H.
  destruct (comprehension_total (id_is id1) (fun _ _ => True) data) as (sel & Hsel & _);
    [|eauto].
  intros x Hx. rewrite forallb_forall in H. apply list_elem_of_In, H in Hx.
  unfold id_is. clear -Hx. induction x as [|[k v] x IH]; simpl in *; [discriminate|].
  destruct (String.eqb k "id"); [eauto|]. now apply IH.
Qed.

Lemma subset_loop_total (data : list record) (id_subset : list string) :
  forallb (has_key "id") data = true ->
  exists d p, subset_loop data id_subset [] [] = Ok (d, p).
Proof.
  intros H. induction id_subset as [|id1 rest (d & p & IH)]; cbn [subset_loop]; [eauto|].
  destruct (id_is_total data id1 H) as (sel & ->).
  destruct (String.eqb id1 EmptyString); [rewrite subset_loop_acc, IH; eauto|].
  destruct (1 <=? count_true sel); [rewrite subset_loop_acc, IH; eauto|].
  destruct (count_true sel =? 0); [rewrite subset_loop_acc, IH; eauto|].
  eauto.
Qed.

Context {RE : ReEngine}.
Variable city_map : list (string * string).
Variable set_iter : list nat -> list nat.

(** C10. An empty string in [id_subset] adds the placeholder record at its
    position and prints nothing: the data and the printed lines of the
    dataset are those of the ids before it, then the placeholder, then those
    of the ids after it, whatever ids the raw records carry.  The
    placeholder then goes through [Entry.__init__] like every record: when
    the constructor of the subclass returns, health check included, the entry
    at that position is the one [Entry.__init__] makes of the placeholder, with
    the id ['None'], the long name ['None'] and no further property. *)
Theorem empty_id_placeholder (data : list record) (pre post : list string) :
  forallb (has_key "id") data = true ->
  exists d1 p1 d2 p2,
    Dataset_init data (Some pre) = Ok (d1, p1)
    /\ Dataset_init data (Some post) = Ok (d2, p2)
    /\ Dataset_init data (Some (pre ++ EmptyString :: post))
       = Ok ({| dataset_data := dataset_data d1 ++ placeholder :: dataset_data d2;
                entries := []; ids := []; longs := [] |},
             p1 ++ p2)
    /\ (forall self printed,
          AntigenDataset_init city_map set_iter data (Some (pre ++ EmptyString :: post))
          = Ok (self, printed) ->
          exists entry,
            entries self !! length (dataset_data d1) = Some entry
            /\ Entry_init city_map set_iter placeholder = Ok entry
            /\ _data entry = placeholder
            /\ id entry = VStr "None"
            /\ long entry = "None"
            /\ properties entry = []).
Proof.
  intros H.
  destruct (subset_loop_total data pre H) as (d1 & p1 & H1).
  destruct (subset_loop_total data post H) as (d2 & p2 & H2).
  assert (Hfull : subset_loop data (pre ++ EmptyString :: post) [] []
                  = Ok (d1 ++ placeholder :: d2, p1 ++ p2)).
  { rewrite subset_loop_app, H1. simpl.
    destruct (id_is_total data EmptyString H) as (sel & ->).
    rewrite subset_loop_acc, H2. now rewrite <- app_assoc. }
  exists {| dataset_data := d1; entries := []; ids := []; longs := [] |}, p1,
         {| dataset_data := d2; entries := []; ids := []; longs := [] |}, p2.
  unfold AntigenDataset_init, subclass_init_checked, subclass_init, Dataset_init.
  rewrite H, H1, H2, Hfull. simpl.
  repeat split.
  intros self printed.
  destruct (comprehension (Entry_init city_map set_iter) _) as [es|e] eqn:Hes;
    [|discriminate].
  destruct (general_health_check _) as [checked|e]; [|discriminate].
  intros [= <- <-]. simpl.
  apply comprehension_Forall2 in Hes.
  destruct (Forall2_lookup_l _ _ _ (length d1) placeholder Hes) as (entry & Hentry & Hinit).
  { rewrite lookup_app_r by lia. now rewrite Nat.sub_diag. }
  exists entry. split; [assumption|]. split; [assumption|].
  unfold Entry_init in Hinit. simpl in Hinit.
  destruct (_find_short_name city_map set_iter "None"); [|discriminate].
  injection Hinit as <-. repeat split.
Qed.

End DatasetInit.

(** The health check of a dataset whose ids are distinct strings and whose
    long names are distinct prints nothing and returns. *)
Lemma set_size_strings (seen l : list string) :
  NoDup (seen ++ l) ->
  AntigenicDatabase.set_size (map VStr seen) (map VStr l)
  = Ok (length seen + length l).
Proof.
  revert seen. induction l as [|a l IH]; intros seen Hnd; simpl.
  - now rewrite length_map, Nat.add_0_r.
  - assert (Hnew : existsb (scalar_eq (VStr a)) (map VStr seen) = false).
    { apply not_true_is_false. intros Hex.
      apply existsb_exists in Hex as (v & Hv & Heq).
      apply in_map_iff in Hv as (b & <- & Hb). simpl in Heq.
      apply String.eqb_eq in Heq. subst b.
      apply NoDup_app in Hnd as (_ & Hdisj & _).
      apply (Hdisj a); [now apply list_elem_of_In | apply elem_of_cons; now left]. }
    rewrite Hnew.
    change (map VStr seen ++ [VStr a]) with (map VStr seen ++ map VStr [a]).
    rewrite <- map_app, IH.
    + rewrite length_app. simpl. f_equal. lia.
    + now rewrite <- app_assoc.
Qed.

Lemma remove_dups_NoDup {A : Type} `{EqDecision A} (l : list A) :
  NoDup l -> remove_dups l = l.
Proof.
  induction 1 as [|x l Hx _ IH]; simpl; [reflexivity|].
  destruct (decide_rel elem_of x l); [contradiction | now rewrite IH].
Qed.

Lemma filter_non_strings (l : list string) :
  filter (fun x => negb (AntigenicDatabase.is_str x)) (map VStr l) = [].
Proof.
  induction l as [|a l IH]; [reflexivity|].
  change (map VStr (a :: l)) with (VStr a :: map VStr l).
  rewrite filter_cons_False by (simpl; exact id). exact IH.
Qed.

Lemma general_health_check_clean {RE : ReEngine}
  (self : AntigenicDatabase.Dataset) (names : list string) :
  AntigenicDatabase.ids self = map VStr names ->
  NoDup names ->
  NoDup (AntigenicDatabase.longs self) ->
  AntigenicDatabase.general_health_check self = Ok [].
Proof.
  intros Hids Hnames Hlongs. unfold AntigenicDatabase.general_health_check.
  rewrite Hids.
  pose proof (set_size_strings [] names Hnames) as Hsize. simpl in Hsize.
  rewrite Hsize. simpl.
  rewrite length_map, Nat.eqb_refl. simpl.
  rewrite (remove_dups_NoDup _ Hlongs), Nat.eqb_refl. simpl.
  now rewrite filter_non_strings.
Qed.

(** The constructor of a subclass then returns the dataset with its entries,
    and prints the lines of [Dataset.__init__] only. *)
Lemma AntigenDataset_init_clean {RE : ReEngine}
  (city_map : list (string * string)) (set_iter : list nat -> list nat)
  (data : list record) (id_subset : option (list string))
  (self : AntigenicDatabase.Dataset) (printed names : list string) :
  AntigenicDatabase.subclass_init city_map set_iter data id_subset = Ok (self, printed) ->
  AntigenicDatabase.ids self = map VStr names ->
  NoDup names ->
  NoDup (AntigenicDatabase.longs self) ->
  AntigenicDatabase.AntigenDataset_init city_map set_iter data id_subset
  = Ok (self, map AntigenicDatabase.Line printed).
Proof.
  intros Hinit Hids Hnames Hlongs.
  unfold AntigenicDatabase.AntigenDataset_init, AntigenicDatabase.subclass_init_checked.
  rewrite Hinit, (general_health_check_clean self names Hids Hnames Hlongs).
  now rewrite app_nil_r.
Qed.

(** The health check at work.  An id that occurs twice is reported once for
    each of its occurrences, with the entries that carry it; an id that is no
    string ends the constructor with a [TypeError], for the health check hands
    it to [re.findall]. *)
Example health_check_reports_repeated_id :
  AntigenicDatabase.AntigenDataset_init (RE := LiteralRe.engine) Examples.hongkong_map
    Examples.first_seen [Examples.vietnam; Examples.hongkong] (Some ["A1"; "A1"])
  = Ok (Examples.vietnam_twice,
        [AntigenicDatabase.EncounteredLine (VStr "A1") 2;
         AntigenicDatabase.EntryLine Examples.vietnam_entry;
         AntigenicDatabase.EntryLine Examples.vietnam_entry;
         AntigenicDatabase.Line EmptyString;
         AntigenicDatabase.EncounteredLine (VStr "A1") 2;
         AntigenicDatabase.EntryLine Examples.vietnam_entry;
         AntigenicDatabase.EntryLine Examples.vietnam_entry;
         AntigenicDatabase.Line EmptyString]).
Proof. vm_compute. reflexivity. Qed.

Example health_check_raises_on_integer_id :
  (exists self,
      AntigenicDatabase.subclass_init (RE := LiteralRe.engine) Examples.hongkong_map
        Examples.first_seen [[("id", VInt 7); ("long", VStr "A/X/1")]] None
      = Ok (self, []))
  /\ AntigenicDatabase.AntigenDataset_init (RE := LiteralRe.engine) Examples.hongkong_map
       Examples.first_seen [[("id", VInt 7); ("long", VStr "A/X/1")]] None
     = Raise TypeError.
Proof. split; [eexists|]; vm_compute; reflexivity. Qed.

Lemma empty_id_placeholder_witness :
  forallb (has_key "id") [Examples.vietnam; Examples.hongkong] = true
  /\ AntigenicDatabase.Dataset_init [Examples.vietnam; Examples.hongkong]
       (Some (["A2"; "B7"] ++ EmptyString :: ["A1"]))
     = Ok ({| AntigenicDatabase.dataset_data :=
                [Examples.hongkong; AntigenicDatabase.placeholder; Examples.vietnam];
              AntigenicDatabase.entries := [];
              AntigenicDatabase.ids := [];
              AntigenicDatabase.longs := [] |},
           [AntigenicDatabase.warn_no_data "B7"])
  /\ AntigenicDatabase.AntigenDataset_init (RE := LiteralRe.engine) Examples.hongkong_map
       Examples.first_seen [Examples.vietnam; Examples.hongkong]
       (Some (["A2"; "B7"] ++ EmptyString :: ["A1"]))
     = Ok (Examples.hongkong_none_vietnam,
           [AntigenicDatabase.Line (AntigenicDatabase.warn_no_data "B7")])
  /\ exists entry,
       AntigenicDatabase.entries Examples.hongkong_none_vietnam !! 1 = Some entry
       /\ AntigenicDatabase.Entry_init (RE := LiteralRe.engine) Examples.hongkong_map
            Examples.first_seen AntigenicDatabase.placeholder = Ok entry
       /\ AntigenicDatabase._data entry = AntigenicDatabase.placeholder
       /\ AntigenicDatabase.id entry = VStr "None"
       /\ AntigenicDatabase.long entry = "None"
       /\ AntigenicDatabase.properties entry = [].
Proof.
  assert (H : forallb (has_key "id") [Examples.vietnam; Examples.hongkong] = true)
    by reflexivity.
  assert (Hinit :
            AntigenicDatabase.AntigenDataset_init (RE := LiteralRe.engine)
              Examples.hongkong_map Examples.first_seen
              [Examples.vietnam; Examples.hongkong]
              (Some (["A2"; "B7"] ++ EmptyString :: ["A1"]))
            = Ok (Examples.hongkong_none_vietnam,
                  [AntigenicDatabase.Line (AntigenicDatabase.warn_no_data "B7")]))
    by (vm_compute; reflexivity).
  destruct (empty_id_placeholder (RE := LiteralRe.engine) Examples.hongkong_map
              Examples.first_seen [Examples.vietnam; Examples.hongkong]
              ["A2"; "B7"] ["A1"] H)
    as (d1 & p1 & d2 & p2 & H1 & H2 & H3 & H4).
  vm_compute in H1. vm_compute in H2.
  injection H1 as <- <-. injection H2 as <- <-.
  split; [exact H|]. split; [exact H3|]. split; [exact Hinit|].
  exact (H4 _ _ Hinit).
Defined.

(** The second pass at work, the scenario of the tests: the first pass finds
    one hit at most, the refined pass splits [HONG-KONG] and finds three. *)
Example aliased_search_refined :
  AntigenicDatabase.hits (RE := LiteralRe.engine) Examples.hongkong_map
    Examples.antigens "HONG-KONG/213/2003" true false true = Ok [0; 1]
  /\ AntigenicDatabase.hits (RE := LiteralRe.engine) Examples.hongkong_map
       Examples.antigens "HONG-KONG/213/2003" true true true = Ok [0; 3]
  /\ AntigenicDatabase.aliased_search (RE := LiteralRe.engine) Examples.hongkong_map
       Examples.antigens "HONG-KONG/213/2003" true true
     = Ok [Examples.hongkong_entry].
Proof. repeat split; vm_compute; reflexivity. Qed.

(** ** The mutation gate *)

Section MutationGate.

Import AntigenicDatabase.

Lemma token_at_whole (letter : ascii -> bool) (s m : string) :
  token_at letter s = Some m -> token_at letter m = Some m.
Proof.
  unfold token_at.
  destruct s as [|a [|d1 [|d2 [|x rest]]]]; try discriminate.
  destruct (letter a) eqn:Ea; [|discriminate].
  destruct (Str.is_digit d1) eqn:E1; [|discriminate].
  destruct (Str.is_digit d2) eqn:E2; [|discriminate]. simpl.
  destruct (Str.is_digit x) eqn:Ex.
  - destruct rest as [|y r]; [discriminate|].
    destruct (letter y) eqn:Ey; [|discriminate].
    intros [= <-]. now rewrite Ea, E1, E2, Ex, Ey.
  - destruct (letter x) eqn:Ey; [|discriminate].
    intros [= <-]. now rewrite Ea, E1, E2, Ex, Ey.
Qed.

(** Every token that [re.findall] extracts is, from its first to its last
    character, a match of the pattern. *)
Lemma findall_from_tokens (letter : ascii -> bool) (s : string) (skip : nat)
  (token : string) :
  token ∈ findall_from letter skip s -> token_at letter token = Some token.
Proof.
  revert skip. induction s as [|c s IH]; intros skip; cbn [findall_from].
  - intros H. inversion H.
  - destruct skip as [|k]; [|apply IH].
    destruct (token_at letter (String c s)) as [m|] eqn:E; [|apply IH].
    intros [->|H]%elem_of_cons; [now apply token_at_whole in E | now apply IH in H].
Qed.

Context {RE : ReEngine}.
Variable city_map : list (string * string).

(** C2 (as amended). The tokens are those of the pattern with the twenty
    amino-acid letters, not with every capital letter: each extracted token
    is a match of that pattern, and as soon as some token is extracted from
    one of the query and the long name and not from the other, so that the
    two sets differ, the score is 0, whatever the other arguments are.  With
    the token [H275Y] extracted from the query and not from the long name
    this is the stated example. *)
Theorem mutation_gate
  (self : Entry) (query : string) (ignore_case refined regexp : bool)
  (token : string) :
  (token ∈ muts1 (Str.split "/" query) /\ (token ∉ muts2 self))
  \/ ((token ∉ muts1 (Str.split "/" query)) /\ token ∈ muts2 self) ->
  _alias_search city_map self query ignore_case refined false regexp = Ok 0
  /\ token_at is_amino token = Some token.
Proof.
  intros H. split.
  - unfold _alias_search, mutations_differ. simpl.
    rewrite bool_decide_eq_true_2; [reflexivity|].
    intros Heq.
    assert (Hiff : token ∈ muts1 (Str.split "/" query) <-> token ∈ muts2 self).
    { rewrite <- !(elem_of_list_to_set (C := gset string)). now rewrite Heq. }
    destruct H as [[H1 H2]|[H1 H2]]; tauto.
  - assert (Hin : exists s, token ∈ mut_findall s).
    { destruct H as [[H _]|[_ H]]; unfold muts1, muts2, flatten_list in H;
        apply list_elem_of_In, in_concat in H as (l & Hl & Hm);
        apply in_map_iff in Hl as (s & <- & _); exists s; now apply list_elem_of_In. }
    destruct Hin as (s & Hs). now apply findall_from_tokens in Hs.
Qed.

End MutationGate.

Lemma mutation_gate_witness :
  (("H275Y" ∈ AntigenicDatabase.muts1 (Str.split "/" "A/VIETNAM/1194/2004-H275Y")
    /\ ("H275Y" ∉ AntigenicDatabase.muts2 Examples.vietnam_entry))
   \/ (("H275Y" ∉ AntigenicDatabase.muts1 (Str.split "/" "A/VIETNAM/1194/2004-H275Y"))
       /\ "H275Y" ∈ AntigenicDatabase.muts2 Examples.vietnam_entry))
  /\ AntigenicDatabase._alias_search (RE := LiteralRe.engine) Examples.hongkong_map
       Examples.vietnam_entry "A/VIETNAM/1194/2004-H275Y" true false false true = Ok 0
  /\ AntigenicDatabase._alias_search (RE := LiteralRe.engine) Examples.hongkong_map
       Examples.vietnam_entry "A/VIETNAM/1194/2004-H275Y" true false true true = Ok 2.
Proof.
  assert (H : ("H275Y" ∈ AntigenicDatabase.muts1 (Str.split "/" "A/VIETNAM/1194/2004-H275Y")
               /\ ("H275Y" ∉ AntigenicDatabase.muts2 Examples.vietnam_entry))
              \/ (("H275Y" ∉ AntigenicDatabase.muts1 (Str.split "/" "A/VIETNAM/1194/2004-H275Y"))
                  /\ "H275Y" ∈ AntigenicDatabase.muts2 Examples.vietnam_entry)).
  { left. split.
    - vm_compute. apply elem_of_cons. now left.
    - vm_compute. intros H. inversion H. }
  split; [exact H|]. split.
  - exact (proj1 (mutation_gate (RE := LiteralRe.engine) Examples.hongkong_map
                    Examples.vietnam_entry "A/VIETNAM/1194/2004-H275Y"
                    true false true "H275Y" H)).
  - vm_compute. reflexivity.
Defined.

(** C2, the claim as stated fails: with every capital letter allowed, [B12J]
    is a token of the query and of no part of the long name [ABCDE], so the
    token sets of the stated pattern differ; the code extracts no token on
    either side and scores the hit on [ABCDE]. *)
Lemma capital_tokens_do_not_gate :
  list_to_set (C := gset string)
    (flatten_list (map capital_findall (Str.split "/" "ABCDE/B12J")))
  <> list_to_set (C := gset string)
       (flatten_list (map capital_findall
                          (AntigenicDatabase.split_all
                             (AntigenicDatabase.long Examples.abcde_entry))))
  /\ AntigenicDatabase._alias_search (RE := LiteralRe.engine) Examples.hongkong_map
       Examples.abcde_entry "ABCDE/B12J" true false false false = Ok 1
  /\ AntigenicDatabase._alias_search (RE := LiteralRe.engine) Examples.hongkong_map
       Examples.abcde_entry "ABCDE/B12J" true false false true = Ok 1.
Proof.
  split; [|split; vm_compute; reflexivity].
  intros H.
  assert (Hin : "B12J" ∈ list_to_set (C := gset string)
                  (flatten_list (map capital_findall (Str.split "/" "ABCDE/B12J")))).
  { apply elem_of_list_to_set. vm_compute. apply elem_of_cons. now left. }
  rewrite H in Hin. apply elem_of_list_to_set in Hin.
  vm_compute in Hin. inversion Hin.
Qed.

(** ** Short-name derivation *)

Section ShortName.

Import AntigenicDatabase.

Lemma short_name_loop_snoc (cs : list City) (city : City) (short_name : string) :
  short_name_loop (cs ++ [city]) short_name
  = replace_city city (short_name_loop cs short_name).
Proof.
  revert short_name. induction cs as [|c cs IH]; intros short_name; simpl;
    [reflexivity | apply IH].
Qed.

Lemma enumeration_of_one (f g : list nat -> list nat) (xs : list nat) :
  set_enumeration f -> set_enumeration g ->
  (forall j k, j ∈ xs -> k ∈ xs -> j = k) ->
  f xs = g xs.
Proof.
  intros Hf Hg Hone.
  assert (Hcanon : forall h, set_enumeration h ->
                             h xs = match xs with [] => [] | x :: _ => [x] end).
  { intros h Hh. destruct (Hh xs) as [Hnd Hin].
    destruct xs as [|x xs'].
    - destruct (h []) as [|a l]; [reflexivity|].
      exfalso. assert (Ha : a ∈ []) by (apply Hin, elem_of_cons; now left). inversion Ha.
    - assert (Hall : forall a, a ∈ h (x :: xs') -> a = x).
      { intros a Ha. apply Hin in Ha. apply Hone; [assumption|]. apply elem_of_cons. now left. }
      assert (Hx : x ∈ h (x :: xs')) by (apply Hin, elem_of_cons; now left).
      destruct (h (x :: xs')) as [|a [|b l]].
      + inversion Hx.
      + f_equal. apply Hall, elem_of_cons. now left.
      + exfalso. assert (a = x) by (apply Hall, elem_of_cons; now left).
        assert (b = x) by (apply Hall, elem_of_cons; right; apply elem_of_cons; now left).
        subst. apply NoDup_cons in Hnd as [Hnd _]. apply Hnd, elem_of_cons. now left. }
  now rewrite (Hcanon f Hf), (Hcanon g Hg).
Qed.

Context {RE : ReEngine}.
Variable city_map : list (string * string).

(** When a single place is detected the order in which the set lists the
    places plays no part in the short name. *)
Lemma short_name_of_one_place
  (set_iter set_iter' : list nat -> list nat) (long : string) (Ix : list nat) :
  search_indices (city_list city_map) long true false false = Ok Ix ->
  set_enumeration set_iter -> set_enumeration set_iter' ->
  (forall j k, j ∈ Ix -> k ∈ Ix -> j = k) ->
  _find_short_name city_map set_iter' long = _find_short_name city_map set_iter long.
Proof.
  intros Hsearch Hf Hg Hone. unfold _find_short_name. rewrite Hsearch.
  now rewrite (enumeration_of_one set_iter' set_iter Ix Hg Hf Hone).
Qed.

End ShortName.

Lemma first_seen_enumeration : set_enumeration Examples.first_seen.
Proof.
  intros xs. split; [apply NoDup_remove_dups | intros x; apply elem_of_remove_dups].
Qed.

Lemma last_seen_enumeration : set_enumeration Examples.last_seen.
Proof.
  intros xs. unfold Examples.last_seen. split.
  - rewrite reverse_Permutation. apply NoDup_remove_dups.
  - intros x. now rewrite elem_of_reverse, elem_of_remove_dups.
Qed.

(** C6. The places detected in the long name are put into a set of objects
    before they are processed, and the order in which that set lists them is
    not the order of the directory: the short name differs from one order to
    the other.  In the directory [HG: HONG, HK: HONGKONG] the long name
    [A/HONG/1] mentions both places (indices 0 and 1); processed in the order
    of the directory they give [A/HK/1], processed in the opposite order,
    which is an enumeration of the same set, they give [A/HG/1].  With the two
    codes that the directory of [CityList.py] gives to [CHIANGMAI], the long
    name [A/CHIANGMAI/1/2005] becomes [CM/AP/1/2005] in the order of the
    directory and [A/AP/1/2005] in the opposite order.  The short name is no
    function of the long name and the directory, and the places are not
    processed in the order of the directory. *)
Theorem short_name_depends_on_set_order :
  set_enumeration Examples.first_seen
  /\ set_enumeration Examples.last_seen
  /\ search_indices (RE := LiteralRe.engine)
       (AntigenicDatabase.city_list Examples.hong_map) "A/HONG/1" true false false
     = Ok [0; 1]
  /\ Examples.first_seen [0; 1] = [0; 1]
  /\ Examples.last_seen [0; 1] = [1; 0]
  /\ AntigenicDatabase._find_short_name (RE := LiteralRe.engine)
       Examples.hong_map Examples.first_seen "A/HONG/1" = Ok "A/HK/1"
  /\ AntigenicDatabase._find_short_name (RE := LiteralRe.engine)
       Examples.hong_map Examples.last_seen "A/HONG/1" = Ok "A/HG/1"
  /\ search_indices (RE := LiteralRe.engine)
       (AntigenicDatabase.city_list Examples.chiangmai_map) "A/CHIANGMAI/1/2005"
       true false false
     = Ok [0; 1]
  /\ AntigenicDatabase._find_short_name (RE := LiteralRe.engine)
       Examples.chiangmai_map Examples.first_seen "A/CHIANGMAI/1/2005"
     = Ok "CM/AP/1/2005"
  /\ AntigenicDatabase._find_short_name (RE := LiteralRe.engine)
       Examples.chiangmai_map Examples.last_seen "A/CHIANGMAI/1/2005"
     = Ok "A/AP/1/2005".
Proof.
  split; [apply first_seen_enumeration|].
  split; [apply last_seen_enumeration|].
  repeat split; vm_compute; reflexivity.
Qed.

(** ** Exact lookup *)

(** C7. [get_entry] hands the stored id to [re.findall] as the pattern and
    the query as the string to search: the query [A12] returns the entry
    [A1], whose id it does not match, where the lookup of the query in the
    ids returns nothing; the query [A1] returns the entry [A1] either way. *)
Theorem get_entry_swaps_pattern_and_string :
  AntigenicDatabase.ids Examples.antigens = [VStr "A1"; VStr "A2"]
  /\ AntigenicDatabase.get_entry (RE := LiteralRe.engine) Examples.antigens "A12" "id"
     = Ok [Examples.vietnam_entry]
  /\ get_entry_as_specified (RE := LiteralRe.engine) Examples.antigens "A12" "id" = Ok []
  /\ AntigenicDatabase.get_entry (RE := LiteralRe.engine) Examples.antigens "A1" "id"
     = Ok [Examples.vietnam_entry]
  /\ get_entry_as_specified (RE := LiteralRe.engine) Examples.antigens "A1" "id"
     = Ok [Examples.vietnam_entry].
Proof. repeat split; vm_compute; reflexivity. Qed.

(** * Further properties *)

(** ** Deep value search *)

Lemma dict_search_val_leaves `{RE : ReEngine}
  (v : pyval) (search_value : string) (ignore_case regexp : bool) :
  tools.dict_search_val v search_value ignore_case regexp
  = match tools.comparitor search_value ignore_case regexp with
    | Raise e => Raise e
    | Ok compare =>
        Ok (existsb (fun s => compare (if ignore_case then Str.upper s else s))
                    (string_leaves v))
    end.
Proof.
  pose (P := fun v =>
               tools.dict_search_val v search_value ignore_case regexp
               = match tools.comparitor search_value ignore_case regexp with
                 | Raise e => Raise e
                 | Ok compare =>
                     Ok (existsb (fun s => compare (if ignore_case then Str.upper s else s))
                                 (string_leaves v))
                 end).
  enough (H : P v /\ match v with VList l => Forall P l | _ => True end) by apply H.
  induction v as [| b | z | s | l IH | d IH] using pyval_nested_ind;
    try (split; [unfold P; cbn; now destruct (tools.comparitor _ _ _) | exact Logic.I]).
  - split; [unfold P; cbn; now destruct (tools.comparitor _ _ _)|].
    eapply Forall_impl; [exact IH|]. now intros x [H _].
  - split; [|exact Logic.I]. unfold P in *. cbn [tools.dict_search_val string_leaves].
    destruct (tools.comparitor search_value ignore_case regexp) as [compare|e] eqn:Hc;
      [|reflexivity].
    induction IH as [|[key x] d [Hx Hl] _ IHd]; [reflexivity|].
    cbn [snd] in Hx, Hl. rewrite existsb_app.
    destruct x as [| b | z | s | l | d']; cbn [orb]; try exact IHd.
    + cbn [existsb]. rewrite orb_false_r.
      destruct (compare _); [reflexivity | exact IHd].
    + clear Hx. induction Hl as [|e l He _ IHl]; [exact IHd|].
      rewrite existsb_app.
      destruct e as [| b | z | s | l0 | d0]; cbn [existsb orb]; try exact IHl.
      * rewrite orb_false_r. destruct (compare _); [reflexivity | exact IHl].
      * rewrite He. destruct (existsb _ (string_leaves (VDict d0))); [reflexivity | exact IHl].
    + rewrite Hx. destruct (existsb _ (string_leaves (VDict d'))); [reflexivity | exact IHd].
Qed.

(** X2. [dict_search] raises exactly when its pattern does not compile, also
    on an empty dict, and never without [regexp]; otherwise it is true exactly
    when the comparison accepts one of the strings it visits: the string
    values, the strings in list values, and those of the dicts found as values
    or in list values.  Strings in a list inside a list are not visited. *)
Theorem dict_search_leaves `{RE : ReEngine}
  (dictionary : record) (search_value : string) (ignore_case regexp : bool) :
  tools.dict_search dictionary search_value ignore_case regexp
  = match tools.comparitor search_value ignore_case regexp with
    | Raise e => Raise e
    | Ok compare =>
        Ok (existsb (fun s => compare (if ignore_case then Str.upper s else s))
                    (string_leaves (VDict dictionary)))
    end.
Proof. apply dict_search_val_leaves. Qed.

Lemma string_leaves_app (d1 d2 : record) :
  string_leaves (VDict (d1 ++ d2)) = string_leaves (VDict d1) ++ string_leaves (VDict d2).
Proof.
  induction d1 as [|[k x] d1 IH]; [reflexivity|].
  cbn [string_leaves app] in *. now rewrite IH, app_assoc.
Qed.

(** X3. Searching a dict made of the items of two dicts that share no key is
    searching both: the result is the disjunction of the two results, and it
    raises when either search does (both compile the same pattern). *)
Theorem dict_search_app `{RE : ReEngine}
  (d1 d2 : record) (search_value : string) (ignore_case regexp : bool) :
  NoDup (map fst (d1 ++ d2)) ->
  tools.dict_search (d1 ++ d2) search_value ignore_case regexp
  = match tools.dict_search d1 search_value ignore_case regexp,
          tools.dict_search d2 search_value ignore_case regexp with
    | Ok hit1, Ok hit2 => Ok (hit1 || hit2)
    | Raise e, _ => Raise e
    | _, Raise e => Raise e
    end.
Proof.
  intros _. unfold tools.dict_search. rewrite !dict_search_val_leaves.
  destruct (tools.comparitor search_value ignore_case regexp); [|reflexivity].
  now rewrite string_leaves_app, existsb_app.
Qed.

Lemma dict_search_app_witness :
  NoDup (map fst ([("id", VStr "A1")] ++ [("long", VStr "A/VIETNAM/1194/2004")]))
  /\ tools.dict_search (RE := LiteralRe.engine) Examples.vietnam "VIETNAM" true true
     = Ok true
  /\ tools.dict_search (RE := LiteralRe.engine) [("id", VStr "A1")] "VIETNAM" true true
     = Ok false
  /\ tools.dict_search (RE := LiteralRe.engine)
       [("long", VStr "A/VIETNAM/1194/2004")] "VIETNAM" true true
     = Ok true.
Proof.
  assert (H : NoDup (map fst ([("id", VStr "A1")]
                              ++ [("long", VStr "A/VIETNAM/1194/2004")]))).
  { apply (bool_decide_unpack _). vm_compute. exact Logic.I. }
  split; [exact H|].
  pose proof (dict_search_app (RE := LiteralRe.engine) [("id", VStr "A1")]
                [("long", VStr "A/VIETNAM/1194/2004")] "VIETNAM" true true H) as Happ.
  assert (H1 : tools.dict_search (RE := LiteralRe.engine) [("id", VStr "A1")]
                 "VIETNAM" true true = Ok false) by (vm_compute; reflexivity).
  assert (H2 : tools.dict_search (RE := LiteralRe.engine)
                 [("long", VStr "A/VIETNAM/1194/2004")] "VIETNAM" true true = Ok true)
    by (vm_compute; reflexivity).
  rewrite H1, H2 in Happ.
  split; [exact Happ|]. split; [exact H1 | exact H2].
Defined.

(** Without [regexp], [dict_search] never raises, and it finds the value
    exactly when one of the visited strings equals it, both upper-cased when
    [ignore_case] is set. *)
Lemma dict_search_literal `{RE : ReEngine}
  (dictionary : record) (search_value : string) (ignore_case : bool) :
  exists hit,
    tools.dict_search dictionary search_value ignore_case false = Ok hit
    /\ (hit = true <->
        exists s, s ∈ string_leaves (VDict dictionary)
                  /\ (if ignore_case then Str.upper s else s)
                     = (if ignore_case then Str.upper search_value else search_value)).
Proof.
  unfold tools.dict_search. rewrite dict_search_val_leaves. cbn [tools.comparitor]. eexists. split; [reflexivity|].
  rewrite existsb_exists. split.
  - intros (s & Hin & Heq). exists s. split; [now apply list_elem_of_In|].
    symmetry. now apply String.eqb_eq.
  - intros (s & Hin & Heq). exists s. split; [now apply list_elem_of_In|].
    apply String.eqb_eq. now symmetry.
Qed.

(** ** Deep key search *)

Lemma dict_key_search_val_items `{RE : ReEngine}
  (v : pyval) (search_key : string) (ignore_case regexp : bool) :
  tools.dict_key_search_val v search_key ignore_case regexp
  = match tools.comparitor search_key ignore_case regexp with
    | Raise e => Raise e
    | Ok compare =>
        Ok (filter (fun kv => Is_true (compare (if ignore_case then Str.upper (fst kv)
                                                else fst kv)))
                   (items_preorder v))
    end.
Proof.
  induction v as [| b | z | s | l IH | d IH] using pyval_nested_ind;
    try (cbn; now destruct (tools.comparitor _ _ _)).
  cbn [tools.dict_key_search_val items_preorder].
  destruct (tools.comparitor search_key ignore_case regexp) as [compare|e] eqn:Hc;
    [|reflexivity].
  induction IH as [|[key x] d Hx _ IHd]; [reflexivity|].
  cbn [snd] in Hx. rewrite IHd.
  assert (Hnested :
            match x with
            | VDict _ => tools.dict_key_search_val x search_key ignore_case regexp
            | _ => Ok []
            end
            = Ok (filter (fun kv => Is_true (compare (if ignore_case then Str.upper (fst kv)
                                                      else fst kv)))
                         (items_preorder x))).
  { destruct x; try reflexivity. exact Hx. }
  rewrite Hnested. unfold flatten_list. cbn [concat]. rewrite app_nil_r.
  rewrite filter_cons, filter_app. cbn [fst].
  destruct (compare _); [rewrite decide_True by exact Logic.I | rewrite decide_False by tauto];
    reflexivity.
Qed.

(** X4. [dict_key_search] raises exactly when its pattern does not compile and
    never without [regexp]; otherwise it returns all the items whose key the
    comparison accepts, among the items of the dict and of the dicts nested in
    it as values, an item before the items inside its value.  Dicts inside
    lists are not entered. *)
Theorem dict_key_search_items `{RE : ReEngine}
  (dictionary : record) (search_key : string) (ignore_case regexp : bool) :
  tools.dict_key_search dictionary search_key ignore_case regexp
  = match tools.comparitor search_key ignore_case regexp with
    | Raise e => Raise e
    | Ok compare =>
        Ok (filter (fun kv => Is_true (compare (if ignore_case then Str.upper (fst kv)
                                                else fst kv)))
                   (items_preorder (VDict dictionary)))
    end.
Proof. apply dict_key_search_val_items. Qed.

(** The scenario of the tests of [dict_key_search]. *)
Example dict_key_search_scenario :
  let dict1 := [("A", VStr "B");
                ("C", VDict [("D", VDict [("a", VDict [("A", VStr "D")])])])] in
  tools.dict_key_search (RE := LiteralRe.engine) dict1 "A" true false
  = Ok [("A", VStr "B"); ("a", VDict [("A", VStr "D")]); ("A", VStr "D")]
  /\ tools.dict_key_search (RE := LiteralRe.engine) dict1 "A" false false
     = Ok [("A", VStr "B"); ("A", VStr "D")].
Proof. split; reflexivity. Qed.

(** ** Strings *)

Lemma upper_char_idem (c : ascii) : Str.upper_char (Str.upper_char c) = Str.upper_char c.
Proof. destruct c as [[] [] [] [] [] [] [] []]; reflexivity. Qed.

Lemma upper_idem (s : string) : Str.upper (Str.upper s) = Str.upper s.
Proof. induction s as [|c s IH]; simpl; [reflexivity | now rewrite upper_char_idem, IH]. Qed.

Lemma append_nil_r (s : string) : s +:+ EmptyString = s.
Proof.
  induction s as [|c s IH]; [reflexivity|].
  change (String c s +:+ EmptyString) with (String c (s +:+ EmptyString)). now rewrite IH.
Qed.

Lemma append_assoc (a b c : string) : (a +:+ b) +:+ c = a +:+ (b +:+ c).
Proof.
  induction a as [|x a IH]; [reflexivity|].
  change ((String x a +:+ b) +:+ c) with (String x ((a +:+ b) +:+ c)). now rewrite IH.
Qed.

Lemma prefix_char (c a : ascii) (s : string) :
  String.prefix (String c EmptyString) (String a s) = Ascii.eqb c a.
Proof.
  simpl. destruct (ascii_dec c a) as [->|Hne].
  - rewrite Ascii.eqb_refl. now destruct s.
  - symmetry. now apply Ascii.eqb_neq.
Qed.

Lemma contains_char_cons (c a : ascii) (s : string) :
  Str.contains (String c EmptyString) (String a s)
  = Ascii.eqb c a || Str.contains (String c EmptyString) s.
Proof. cbn [Str.contains]. now rewrite prefix_char. Qed.

Lemma contains_char_app (c : ascii) (x y : string) :
  Str.contains (String c EmptyString) (x +:+ y)
  = Str.contains (String c EmptyString) x || Str.contains (String c EmptyString) y.
Proof.
  induction x as [|a x IH].
  - reflexivity.
  - change (String a x +:+ y) with (String a (x +:+ y)).
    rewrite !contains_char_cons, IH. now rewrite orb_assoc.
Qed.

Lemma replace_char_cons (c a : ascii) (new s : string) :
  Str.replace (String c EmptyString) new (String a s)
  = if Ascii.eqb c a then new +:+ Str.replace (String c EmptyString) new s
    else String a (Str.replace (String c EmptyString) new s).
Proof.
  unfold Str.replace. cbn [Str.replace_from]. rewrite prefix_char. reflexivity.
Qed.

(** After [s.replace(c, new)] for a character [c] that [new] does not
    contain, [c] no longer occurs. *)
Lemma replace_char_removes (c : ascii) (new s : string) :
  Str.contains (String c EmptyString) new = false ->
  Str.contains (String c EmptyString) (Str.replace (String c EmptyString) new s) = false.
Proof.
  intros Hnew. induction s as [|a s IH]; [reflexivity|].
  rewrite replace_char_cons. destruct (Ascii.eqb c a) eqn:E.
  - now rewrite contains_char_app, Hnew, IH.
  - now rewrite contains_char_cons, E, IH.
Qed.

(** Where [old] does not occur, [s.replace(old, new)] is [s]. *)
Lemma replace_char_absent (c : ascii) (new s : string) :
  Str.contains (String c EmptyString) s = false ->
  Str.replace (String c EmptyString) new s = s.
Proof.
  induction s as [|a s IH]; [reflexivity|].
  rewrite contains_char_cons, replace_char_cons.
  intros [E H]%orb_false_elim. rewrite E. now rewrite IH.
Qed.

(** ** Alias generation, continued *)

(** X6. Alias generation depends on the name through its upper-cased form
    only: the aliases of a place are those of its stored name, which heads
    the list. *)
Theorem aliases_of_stored_name (nm ab : string) :
  aliases (City_init nm ab) = generate_city_aliases (name (City_init nm ab))
  /\ head (aliases (City_init nm ab)) = Some (name (City_init nm ab))
  /\ generate_city_aliases (Str.upper nm) = generate_city_aliases nm.
Proof.
  cbn [aliases name City_init]. unfold generate_city_aliases.
  rewrite upper_idem. repeat split.
Qed.

(** X7. The number of aliases: the name itself, and for each separator that
    occurs in it one variant per later separator and one with the separator
    removed, that is four variants for ['-'], three for ['_'], two for the
    blank and one for ['/'].  A name without separator is its only alias. *)
Theorem generate_city_aliases_length (nm : string) :
  let occurs c := if Str.contains c (Str.upper nm) then 1 else 0 in
  length (generate_city_aliases nm)
  = 1 + 4 * occurs "-" + 3 * occurs "_" + 2 * occurs " " + occurs "/".
Proof.
  unfold generate_city_aliases, replace_chars.
  cbn [aliases_loop aliases_of_char app flat_map length].
  destruct (Str.contains "-" (Str.upper nm)), (Str.contains "_" (Str.upper nm)),
    (Str.contains " " (Str.upper nm)), (Str.contains "/" (Str.upper nm)); reflexivity.
Qed.

(** X8. Every variant is free of the separator it replaces: the variant
    made for the pair of a separator and a later separator, or the empty
    string, no longer contains the first separator. *)
Theorem alias_variant_drops_separator (nm char1 char2 : string) :
  (char1, char2) ∈ later_pairs replace_chars ->
  Str.contains char1 (Str.replace char1 char2 (Str.upper nm)) = false.
Proof.
  intros H. cbn in H.
  repeat (apply elem_of_cons in H as [[= -> ->]|H];
          [now apply replace_char_removes|]).
  inversion H.
Qed.

Lemma alias_variant_drops_separator_witness :
  ("-", "_") ∈ later_pairs replace_chars
  /\ Str.contains "-" (Str.replace "-" "_" (Str.upper "Hong-Kong")) = false.
Proof.
  assert (H : ("-", "_") ∈ later_pairs replace_chars)
    by (cbn; apply elem_of_cons; now left).
  split; [exact H | exact (alias_variant_drops_separator "Hong-Kong" "-" "_" H)].
Defined.

(** ** Splitting and joining *)

Lemma split_nonempty (sep : ascii) (s : string) : Str.split sep s <> [].
Proof.
  destruct s as [|c s]; simpl; [discriminate|].
  destruct (Ascii.eqb c sep); [discriminate|]. now destruct (Str.split sep s).
Qed.

Lemma split_no_sep (sep : ascii) (s : string) :
  Forall (fun p => Str.contains (String sep EmptyString) p = false) (Str.split sep s).
Proof.
  induction s as [|c s IH]; simpl.
  - repeat constructor.
  - destruct (Ascii.eqb c sep) eqn:E.
    + constructor; [reflexivity | exact IH].
    + destruct (Str.split sep s) as [|h t].
      * constructor; [|constructor].
        rewrite contains_char_cons, Ascii.eqb_sym, E. reflexivity.
      * inversion IH as [|? ? Hh Ht]; subst. constructor; [|exact Ht].
        rewrite contains_char_cons, Ascii.eqb_sym, E. exact Hh.
Qed.

Lemma split_sep_free (sep : ascii) (p : string) :
  Str.contains (String sep EmptyString) p = false -> Str.split sep p = [p].
Proof.
  induction p as [|c p IH]; [reflexivity|].
  rewrite contains_char_cons. intros [E H]%orb_false_elim.
  simpl. rewrite Ascii.eqb_sym, E, (IH H). reflexivity.
Qed.

Lemma split_app_sep (sep : ascii) (p rest : string) :
  Str.contains (String sep EmptyString) p = false ->
  Str.split sep (p +:+ String sep rest) = p :: Str.split sep rest.
Proof.
  induction p as [|c p IH].
  - intros _. change (EmptyString +:+ String sep rest) with (String sep rest).
    simpl. now rewrite Ascii.eqb_refl.
  - rewrite contains_char_cons. intros [E H]%orb_false_elim.
    change (String c p +:+ String sep rest) with (String c (p +:+ String sep rest)).
    cbn [Str.split]. rewrite Ascii.eqb_sym, E, (IH H). reflexivity.
Qed.

Lemma drop_last_app (x y : string) :
  y <> EmptyString -> Str.drop_last (x +:+ y) = x +:+ Str.drop_last y.
Proof.
  intros Hy. induction x as [|c x IH]; [reflexivity|].
  change (String c x +:+ y) with (String c (x +:+ y)).
  change (String c x +:+ Str.drop_last y) with (String c (x +:+ Str.drop_last y)).
  cbn [Str.drop_last]. rewrite IH.
  destruct (x +:+ y) eqn:E; [|reflexivity].
  destruct x; [now destruct Hy | discriminate].
Qed.

(** Joining segments with ['/'] as [_find_short_name] does, and splitting
    the result, gives the segments back. *)
Lemma split_join_slash (parts : list string) :
  parts <> [] ->
  Forall (fun p => Str.contains "/" p = false) parts ->
  Str.split "/" (Str.drop_last (Str.join (map (fun x => x +:+ "/") parts))) = parts.
Proof.
  intros Hne HF. induction HF as [|p parts Hp HF IH]; [congruence|]. clear Hne.
  cbn [map Str.join fold_right].
  change (fold_right String.append EmptyString (map (fun x => x +:+ "/") parts))
    with (Str.join (map (fun x => x +:+ "/") parts)).
  destruct parts as [|q parts].
  - cbn [map Str.join fold_right]. rewrite append_nil_r.
    rewrite drop_last_app by discriminate. cbn [Str.drop_last].
    rewrite append_nil_r. now apply split_sep_free.
  - rewrite append_assoc.
    change ("/" +:+ Str.join (map (fun x => x +:+ "/") (q :: parts)))
      with (String "/" (Str.join (map (fun x => x +:+ "/") (q :: parts)))).
    rewrite drop_last_app by discriminate.
    assert (Hj : Str.join (map (fun x => x +:+ "/") (q :: parts)) <> EmptyString).
    { cbn [map Str.join fold_right].
      destruct q; [change (EmptyString +:+ "/") with "/"|]; discriminate. }
    cbn [Str.drop_last].
    destruct (Str.join (map (fun x => x +:+ "/") (q :: parts))) as [|c j] eqn:Ej;
      [congruence|]. rewrite <- Ej in *.
    rewrite split_app_sep by exact Hp. f_equal. apply IH. discriminate.
Qed.

Lemma argmin_from_spec (l : list nat) (i best_i best : nat) :
  exists m,
    ((argmin_from i best_i best l = best_i /\ m = best)
     \/ exists k, argmin_from i best_i best l = i + k /\ l !! k = Some m)
    /\ m <= best /\ forall x, x ∈ l -> m <= x.
Proof.
  revert i best_i best. induction l as [|x l IH]; intros i best_i best; cbn [argmin_from].
  - exists best. split; [now left|]. split; [lia|]. intros x H. inversion H.
  - destruct (Nat.ltb_spec x best) as [Hlt|Hge].
    + destruct (IH (S i) i x) as (m & Hres & Hm & Hall).
      exists m. split; [|split; [lia|]].
      * right. destruct Hres as [[-> ->]|(k & -> & Hk)].
        -- exists 0. split; [lia | reflexivity].
        -- exists (S k). split; [lia | exact Hk].
      * intros y [->|Hy]%elem_of_cons; [lia | now apply Hall].
    + destruct (IH (S i) best_i best) as (m & Hres & Hm & Hall).
      exists m. split; [|split; [lia|]].
      * destruct Hres as [[-> ->]|(k & -> & Hk)]; [now left|].
        right. exists (S k). split; [lia | exact Hk].
      * intros y [->|Hy]%elem_of_cons; [lia | now apply Hall].
Qed.

(** [np.argmin] of a non-empty list is the index of a least element. *)
Lemma np_argmin_spec (l : list nat) :
  l <> [] -> exists m, l !! np_argmin l = Some m /\ forall x, x ∈ l -> m <= x.
Proof.
  destruct l as [|x l]; [congruence|]. intros _. cbn [np_argmin].
  destruct (argmin_from_spec l 1 0 x) as (m & Hres & Hm & Hall).
  exists m. split.
  - destruct Hres as [[-> ->]|(k & -> & Hk)]; [reflexivity | exact Hk].
  - intros y [->|Hy]%elem_of_cons; [lia | now apply Hall].
Qed.

(** X9. When the name of the place does not occur in the short name, one
    ['/']-segment is replaced by the code and nothing else changes: for a code
    without ['/'], the segments of the new short name are the old segments
    with the code put at one position, a position whose segment is at the
    least edit distance from the name of the place. *)
Theorem replace_city_closest_segment (city : City) (short_name : string) :
  Str.contains (name city) short_name = false ->
  Str.contains "/" (abb city) = false ->
  let segments := Str.split "/" short_name in
  let dists := map (fun nm => ed_eval nm (name city)) segments in
  exists slot d,
    dists !! slot = Some d
    /\ (forall x, x ∈ dists -> d <= x)
    /\ Str.split "/" (AntigenicDatabase.replace_city city short_name)
       = <[slot := abb city]> segments.
Proof.
  intros Hname Habb segments dists.
  assert (Hd : dists <> []).
  { unfold dists, segments. pose proof (split_nonempty "/" short_name).
    destruct (Str.split "/" short_name); [congruence | discriminate]. }
  destruct (np_argmin_spec dists Hd) as (d & Hslot & Hall).
  exists (np_argmin dists), d. split; [exact Hslot|]. split; [exact Hall|].
  unfold AntigenicDatabase.replace_city. rewrite Hname. fold segments. fold dists.
  apply split_join_slash.
  - intros H. apply (f_equal length) in H. rewrite length_insert in H.
    unfold dists in Hd. destruct segments; [now destruct Hd | discriminate].
  - apply Forall_insert; [apply split_no_sep | exact Habb].
Qed.

Lemma replace_city_closest_segment_witness :
  let hk := City_init "HONGKONG" "HK" in
  Str.contains (name hk) "A/HONG-KONG/213/2003" = false
  /\ Str.contains "/" (abb hk) = false
  /\ exists slot d,
       map (fun nm => ed_eval nm (name hk)) (Str.split "/" "A/HONG-KONG/213/2003")
         !! slot = Some d
       /\ Str.split "/" (AntigenicDatabase.replace_city hk "A/HONG-KONG/213/2003")
          = <[slot := abb hk]> (Str.split "/" "A/HONG-KONG/213/2003").
Proof.
  intros hk.
  assert (H1 : Str.contains (name hk) "A/HONG-KONG/213/2003" = false) by reflexivity.
  assert (H2 : Str.contains "/" (abb hk) = false) by reflexivity.
  split; [exact H1|]. split; [exact H2|].
  destruct (replace_city_closest_segment hk "A/HONG-KONG/213/2003" H1 H2)
    as (slot & d & Hd & _ & Hsplit).
  exists slot, d. split; [exact Hd | exact Hsplit].
Defined.

(** ** Edit distance of a place *)

Lemma ed_eval_refl (s : string) : ed_eval s s = 0.
Proof. induction s as [|c s IH]; [reflexivity|]. cbn. now rewrite Ascii.eqb_refl. Qed.

Lemma name_in_aliases (city_map : list (string * string)) (city : City) :
  city ∈ cities (CityList_init city_map) -> name city ∈ aliases city.
Proof.
  cbn [cities CityList_init]. intros ([ab nm] & -> & _)%list_elem_of_fmap.
  apply elem_of_cons. now left.
Qed.

(** X10. For a place of the directory, the distance with aliasing is never
    more than the distance without, which is the edit distance between the
    canonical name and the query; neither raises. *)
Theorem ematch_aliasing_not_larger
  (city_map : list (string * string)) (city : City) (query : string) :
  city ∈ cities (CityList_init city_map) ->
  exists d,
    City_ematch city query true = Ok d
    /\ City_ematch city query false = Ok (ed_eval (name city) query)
    /\ d <= ed_eval (name city) query.
Proof.
  intros Hin.
  destruct (City_ematch_init city_map city query true Hin) as (d & Hd & Hmin).
  exists d. split; [exact Hd|]. split; [reflexivity|].
  apply Hmin, list_elem_of_fmap. exists (name city).
  split; [reflexivity | now apply (name_in_aliases city_map)].
Qed.

Lemma ematch_aliasing_not_larger_witness :
  City_init "HONG-KONG" "HP" ∈ cities (CityList_init Examples.hongkong_map)
  /\ exists d,
       City_ematch (City_init "HONG-KONG" "HP") "KINGKONG" true = Ok d
       /\ d <= ed_eval "HONG-KONG" "KINGKONG".
Proof.
  assert (H : City_init "HONG-KONG" "HP" ∈ cities (CityList_init Examples.hongkong_map))
    by (cbn; apply elem_of_cons; right; apply elem_of_cons; now left).
  split; [exact H|].
  destruct (ematch_aliasing_not_larger Examples.hongkong_map _ "KINGKONG" H)
    as (d & Hd & _ & Hle).
  exists d. split; [exact Hd | exact Hle].
Defined.

Lemma with_score_member {A : Type} (P : A -> nat -> Prop) (xs : list A)
  (scores : list nat) (x : A) (m : nat) :
  Forall2 P xs scores -> x ∈ xs -> (forall s, P x s -> s = m) ->
  x ∈ with_score xs scores m.
Proof.
  intros HF Hin Hx. unfold with_score.
  induction HF as [|y s xs scores Hy HF IH]; [inversion Hin|].
  cbn [zip zip_with]. rewrite filter_cons. cbn [snd].
  apply elem_of_cons in Hin as [<-|Hin].
  - rewrite (Hx s Hy), decide_True by reflexivity. apply elem_of_cons. now left.
  - destruct (decide (s = m)); [apply elem_of_cons; right|]; now apply IH.
Qed.

Lemma half_positive (n : nat) : 0 < n -> (Q_of_nat 0 < Q_of_nat n / 2)%Q.
Proof.
  intros H. unfold Q_of_nat, Qlt, Qdiv, Qmult, Qinv, inject_Z. cbn. lia.
Qed.

(** X11. The name of a place of the directory, when it is not empty, is found
    by the edit-distance search with distance 0, with or without aliasing; the
    places returned are exactly those at distance 0, and that
    place is among them. *)
Theorem esearch_finds_exact_name
  (city_map : list (string * string)) (city : City) (aliasing : bool) :
  city ∈ cities (CityList_init city_map) ->
  name city <> EmptyString ->
  exists found,
    CityList_esearch (CityList_init city_map) (name city) aliasing
    = Ok (found, Q_of_nat 0)
    /\ city ∈ found
    /\ Forall (fun c => City_ematch c (name city) aliasing = Ok 0) found.
Proof.
  intros Hin Hname. set (self := CityList_init city_map).
  destruct (comprehension_total
              (fun c => City_ematch c (name city) aliasing)
              (fun c d => City_ematch c (name city) aliasing = Ok d)
              (cities self)) as (dists & Hcomp & HF).
  { intros c Hc. destruct (City_ematch_init city_map c (name city) aliasing Hc)
      as (d & Hd & _). eauto. }
  pose proof (Forall2_length _ _ _ HF) as Hlen.
  assert (Hzero : City_ematch city (name city) aliasing = Ok 0).
  { destruct (City_ematch_init city_map city (name city) aliasing Hin) as (d & Hd & Hmin).
    rewrite Hd. f_equal.
    enough (d <= 0) by lia. rewrite <- (ed_eval_refl (name city)).
    apply Hmin, list_elem_of_fmap. exists (name city). split; [reflexivity|].
    destruct aliasing; [now apply (name_in_aliases city_map) | apply elem_of_cons; now left]. }
  assert (Hd0 : 0 ∈ dists).
  { apply list_elem_of_lookup in Hin as (i & Hi).
    destruct (Forall2_lookup_l _ _ _ _ _ HF Hi) as (d & Hdi & Hd).
    rewrite Hzero in Hd. injection Hd as <-. apply list_elem_of_lookup. eauto. }
  assert (Hne : dists <> []) by (intros ->; inversion Hd0).
  destruct (py_min_spec dists Hne) as (m & Hm & Hmin).
  assert (m = 0) as -> by (destruct Hmin as [_ Hle]; specialize (Hle 0 Hd0); lia).
  exists (with_score (cities self) dists 0).
  unfold CityList_esearch. fold self. rewrite Hcomp. unfold np_min. rewrite Hm.
  assert (Hlt : Qltb (Q_of_nat 0) (Q_of_nat (String.length (name city)) / 2) = true).
  { apply Qltb_spec, half_positive. destruct (name city); [congruence | cbn; lia]. }
  rewrite Hlt, take_indices_argwhere by exact Hlen.
  split; [reflexivity|]. split.
  - apply (with_score_member _ _ _ _ _ HF Hin). intros s Hs. congruence.
  - clear -HF. unfold with_score. induction HF as [|c d cs ds Hc HF IH]; [constructor|].
    cbn [zip zip_with]. rewrite filter_cons. cbn [snd].
    destruct (decide (d = 0)) as [->|]; [constructor; assumption | exact IH].
Qed.

Lemma esearch_finds_exact_name_witness :
  let hk := City_init "HONGKONG" "HK" in
  hk ∈ cities (CityList_init Examples.hongkong_map)
  /\ name hk <> EmptyString
  /\ exists found,
       CityList_esearch (CityList_init Examples.hongkong_map) (name hk) false
       = Ok (found, Q_of_nat 0)
       /\ hk ∈ found.
Proof.
  intros hk.
  assert (H1 : hk ∈ cities (CityList_init Examples.hongkong_map))
    by (cbn; apply elem_of_cons; now left).
  assert (H2 : name hk <> EmptyString) by discriminate.
  split; [exact H1|]. split; [exact H2|].
  destruct (esearch_finds_exact_name Examples.hongkong_map hk false H1 H2)
    as (found & Hf & Hin & _).
  exists found. split; [exact Hf | exact Hin].
Defined.

(** ** Selecting by index *)

Lemma take_indices_cons_shift {A : Type} (x : A) (l : list A) (Ix : list nat) :
  take_indices (x :: l) (map S Ix) = take_indices l Ix.
Proof. unfold take_indices. induction Ix as [|i Ix IH]; [reflexivity|]. cbn. now rewrite IH. Qed.

Lemma indices_if_shift {A : Type} (p : A -> bool) (l : list A) (i : nat) :
  indices_if p (enumerate_from (S i) l) = map S (indices_if p (enumerate_from i l)).
Proof.
  revert i. induction l as [|x l IH]; intros i; [reflexivity|].
  cbn. rewrite IH. now destruct (p x).
Qed.

(** The elements at the indices that pass a test are the elements that pass
    it, in order. *)
Lemma take_indices_if {A : Type} (p : A -> bool) (l : list A) :
  take_indices l (indices_if p (enumerate l)) = filter (fun x => Is_true (p x)) l.
Proof.
  unfold enumerate. induction l as [|x l IH]; [reflexivity|].
  cbn [enumerate_from indices_if]. rewrite indices_if_shift, filter_cons.
  destruct (p x) eqn:E.
  - rewrite decide_True by exact Logic.I.
    change (take_indices (x :: l) (0 :: map S (indices_if p (enumerate_from 0 l))))
      with (x :: take_indices (x :: l) (map S (indices_if p (enumerate_from 0 l)))).
    now rewrite take_indices_cons_shift, IH.
  - rewrite decide_False by tauto. now rewrite take_indices_cons_shift, IH.
Qed.

Lemma indices_where_shift {A : Type} (p : A -> py bool) (l : list A) (i : nat) :
  indices_where p (enumerate_from (S i) l)
  = match indices_where p (enumerate_from i l) with
    | Raise e => Raise e
    | Ok Ix => Ok (map S Ix)
    end.
Proof.
  revert i. induction l as [|x l IH]; intros i; [reflexivity|].
  cbn. destruct (p x) as [b|e]; [|reflexivity]. rewrite (IH (S i)).
  destruct (indices_where p (enumerate_from (S i) l)); [|reflexivity]. now destruct b.
Qed.

(** The same for a test that may raise: when the comprehension returns, the
    elements it selects are an ordered part of the list, those for which the
    test returned true; and the test raised for no element. *)
Lemma take_indices_where {A : Type} (p : A -> py bool) (l : list A) (Ix : list nat) :
  indices_where p (enumerate l) = Ok Ix ->
  sublist (take_indices l Ix) l
  /\ (forall x, x ∈ take_indices l Ix <-> x ∈ l /\ p x = Ok true)
  /\ Forall (fun x => exists b, p x = Ok b) l.
Proof.
  unfold enumerate. revert Ix. induction l as [|x l IH]; intros Ix.
  - intros [= <-]. cbn. split; [constructor|]. split; [|constructor].
    intros x. split; [intros Hx; inversion Hx | intros [Hx _]; inversion Hx].
  - cbn [enumerate_from indices_where]. rewrite indices_where_shift.
    destruct (p x) as [b|e] eqn:E; [|discriminate].
    destruct (indices_where p (enumerate_from 0 l)) as [Ix'|e]; [|discriminate].
    destruct (IH Ix' eq_refl) as (Hsub & Hmem & Hall).
    intros Heq. injection Heq as <-. destruct b.
    + change (take_indices (x :: l) (0 :: map S Ix'))
        with (x :: take_indices (x :: l) (map S Ix')).
      rewrite take_indices_cons_shift.
      split; [now apply sublist_skip|]. split; [|constructor; eauto].
      intros y. split.
      * intros [->|Hy]%elem_of_cons; [split; [apply elem_of_cons; now left | exact E]|].
        apply Hmem in Hy as [H1 H2]. split; [apply elem_of_cons; now right | exact H2].
      * intros [[->|Hy]%elem_of_cons Hp]; apply elem_of_cons; [now left|].
        right. apply Hmem. now split.
    + rewrite take_indices_cons_shift.
      split; [now apply sublist_cons|]. split; [|constructor; eauto].
      intros y. split.
      * intros Hy. apply Hmem in Hy as [H1 H2].
        split; [apply elem_of_cons; now right | exact H2].
      * intros [[->|Hy]%elem_of_cons Hp]; [congruence|]. apply Hmem. now split.
Qed.

(** ** Directory search *)

(** X12. Without [split], a search that returns yields an ordered part of the
    directory: exactly the places that [match] the query, each as often and in
    the order in which the directory has it. *)
Theorem search_is_sublist `{RE : ReEngine}
  (self : CityList) (query : string) (aliasing exact_match : bool) (found : list City) :
  CityList_search self query false aliasing exact_match = Ok found ->
  sublist found (cities self)
  /\ (forall city,
        city ∈ found <->
        city ∈ cities self /\ City_match city query aliasing exact_match = Ok true).
Proof.
  unfold CityList_search, search_indices. cbn [search_loop].
  destruct (indices_where _ _) as [Ix|e] eqn:E; [|discriminate].
  rewrite app_nil_r. intros [= <-].
  destruct (take_indices_where _ _ _ E) as (Hsub & Hmem & _). now split.
Qed.

Lemma search_is_sublist_witness :
  CityList_search (RE := LiteralRe.engine) (CityList_init Examples.hongkong_map)
    "HONGKONG" false true false
  = Ok (cities (CityList_init Examples.hongkong_map))
  /\ sublist (cities (CityList_init Examples.hongkong_map))
             (cities (CityList_init Examples.hongkong_map)).
Proof.
  assert (H : CityList_search (RE := LiteralRe.engine)
                (CityList_init Examples.hongkong_map) "HONGKONG" false true false
              = Ok (cities (CityList_init Examples.hongkong_map)))
    by (vm_compute; reflexivity).
  split; [exact H|].
  exact (proj1 (search_is_sublist (RE := LiteralRe.engine) _ _ _ _ _ H)).
Defined.

Lemma filter_none {A : Type} (p : A -> bool) (l : list A) :
  Forall (fun x => p x = false) l -> filter (fun x => Is_true (p x)) l = [].
Proof.
  induction 1 as [|x l Hx _ IH]; [reflexivity|].
  rewrite filter_cons, decide_False by (rewrite Hx; tauto). exact IH.
Qed.

(** X13. With [split], fragments of one or two characters are dropped before
    any pattern is compiled: a query made of such fragments only finds
    nothing and cannot raise, whatever the engine, and a long name made of
    such fragments is its own short name. *)
Theorem short_fragments_find_nothing `{RE : ReEngine}
  (city_map : list (string * string)) (set_iter : list nat -> list nat)
  (query : string) (aliasing exact_match : bool) :
  Forall (fun x => String.length x <= 2) (Str.split "/" query) ->
  set_iter [] = [] ->
  CityList_search (CityList_init city_map) query true aliasing exact_match = Ok []
  /\ AntigenicDatabase._find_short_name city_map set_iter query = Ok query.
Proof.
  intros Hshort Hset.
  assert (Hf : filter (fun x => Is_true (2 <? String.length x)) (Str.split "/" query) = []).
  { apply filter_none. eapply Forall_impl; [exact Hshort|].
    intros x Hx. now apply Nat.ltb_ge. }
  unfold AntigenicDatabase._find_short_name, AntigenicDatabase.city_list,
    CityList_search, search_indices.
  rewrite Hf. cbn [search_loop]. now rewrite Hset.
Qed.

Lemma short_fragments_find_nothing_witness :
  Forall (fun x => String.length x <= 2) (Str.split "/" "A/12/x7")
  /\ Examples.first_seen [] = []
  /\ AntigenicDatabase._find_short_name (RE := LiteralRe.engine)
       Examples.hongkong_map Examples.first_seen "A/12/x7" = Ok "A/12/x7".
Proof.
  assert (H1 : Forall (fun x => String.length x <= 2) (Str.split "/" "A/12/x7"))
    by (repeat constructor).
  assert (H2 : Examples.first_seen [] = []) by reflexivity.
  split; [exact H1|]. split; [exact H2|].
  exact (proj2 (short_fragments_find_nothing (RE := LiteralRe.engine)
                  Examples.hongkong_map Examples.first_seen "A/12/x7" false false H1 H2)).
Defined.

(** ** Directory diagnostics *)

(** X14. [name_to_city] returns the places whose stored name is the given
    name, in directory order.  The stored names are upper-cased: every place
    returned has the given name, and the given name is then its own
    upper-case form, so a name with a lower-case letter finds nothing. *)
Theorem name_to_city_exact (city_map : list (string * string)) (nm : string) :
  let self := CityList_init city_map in
  name_to_city self nm = filter (fun city => name city = nm) (cities self)
  /\ Forall (fun city => name city = nm /\ Str.upper nm = nm) (name_to_city self nm).
Proof.
  intros self. unfold name_to_city. rewrite take_indices_if.
  assert (Heq : filter (fun city => Is_true (String.eqb (name city) nm)) (cities self)
                = filter (fun city => name city = nm) (cities self)).
  { apply list_filter_iff. intros city. rewrite Is_true_true. apply String.eqb_eq. }
  rewrite Heq. split; [reflexivity|].
  apply Forall_forall. intros city [Hn Hin]%list_elem_of_filter.
  split; [exact Hn|]. subst nm.
  cbn [cities CityList_init self] in Hin.
  apply list_elem_of_fmap in Hin as ([ab n] & -> & _). apply upper_idem.
Qed.

Lemma nonunique_cities_loop_spec (self : CityList) (todo : list City) (acc : list string) :
  NoDup acc ->
  NoDup (nonunique_cities_loop self todo acc)
  /\ forall nm,
       nm ∈ nonunique_cities_loop self todo acc <->
       nm ∈ acc
       \/ (nm ∈ map name todo /\ 1 < length (name_to_city self nm)).
Proof.
  revert acc. induction todo as [|city rest IH]; intros acc Hnd; cbn [nonunique_cities_loop].
  - split; [exact Hnd|]. intros nm. split; [now left|].
    intros [H|[H _]]; [exact H | inversion H].
  - destruct (Nat.ltb_spec 1 (length (name_to_city self (name city)))) as [Hlt|Hge];
      cbn [andb].
    + destruct (decide (name city ∈ acc)) as [Hin|Hnin].
      * rewrite bool_decide_eq_true_2 by exact Hin. cbn [negb].
        destruct (IH acc Hnd) as [H1 H2]. split; [exact H1|].
        intros nm. rewrite H2. cbn [map]. rewrite elem_of_cons. split.
        -- intros [H|[H Hn]]; [now left | right; split; [now right | exact Hn]].
        -- intros [H|[[->|H] Hn]]; [now left | now left | right; now split].
      * rewrite bool_decide_eq_false_2 by exact Hnin. cbn [negb].
        assert (Hnd' : NoDup (acc ++ [name city])).
        { apply NoDup_app. split; [exact Hnd|]. split; [|apply NoDup_singleton].
          intros x Hx ->%list_elem_of_singleton. contradiction. }
        destruct (IH _ Hnd') as [H1 H2]. split; [exact H1|].
        intros nm. rewrite H2, elem_of_app, list_elem_of_singleton. cbn [map].
        rewrite elem_of_cons. split.
        -- intros [[H| ->]|[H Hn]];
             [now left | right; split; [now left | exact Hlt]
              | right; split; [now right | exact Hn]].
        -- intros [H|[[->|H] Hn]];
             [left; now left | left; now right | right; now split].
    + destruct (IH acc Hnd) as [H1 H2]. split; [exact H1|].
      intros nm. rewrite H2. cbn [map]. rewrite elem_of_cons. split.
      * intros [H|[H Hn]]; [now left | right; split; [now right | exact Hn]].
      * intros [H|[[->|H] Hn]]; [now left | lia | right; now split].
Qed.

(** X15. After the health check, [nonunique_cities] lists each name that more
    than one place of the directory carries, once, and no other name. *)
Theorem nonunique_cities_spec (self : CityList) :
  NoDup (nonunique_cities self)
  /\ forall nm, nm ∈ nonunique_cities self <-> 1 < length (name_to_city self nm).
Proof.
  destruct (nonunique_cities_loop_spec self (cities self) [] (NoDup_nil_2)) as [H1 H2].
  split; [exact H1|]. intros nm. unfold nonunique_cities. rewrite H2. split.
  - intros [H|[_ H]]; [inversion H | exact H].
  - intros H. right. split; [|exact H].
    unfold name_to_city in H. rewrite take_indices_if in H.
    destruct (filter _ (cities self)) as [|city l] eqn:E; [cbn in H; lia|].
    assert (Hin : city ∈ filter (fun c => Is_true (String.eqb (name c) nm)) (cities self))
      by (rewrite E; apply elem_of_cons; now left).
    apply list_elem_of_filter in Hin as [Hn Hin].
    apply Is_true_true, String.eqb_eq in Hn. subst nm.
    apply list_elem_of_fmap. eauto.
Qed.

Lemma list_count_NoDup (x : string) (l : list string) : NoDup l -> list_count x l <= 1.
Proof.
  unfold list_count. induction 1 as [|y l Hy Hnd IH]; [cbn; lia|].
  rewrite filter_cons. destruct (decide (Is_true (String.eqb y x))) as [Hyx|Hyx]; [|exact IH].
  apply Is_true_true, String.eqb_eq in Hyx. subst y.
  rewrite (filter_none (fun z => String.eqb z x)); [cbn; lia|].
  apply Forall_forall. intros z Hz. apply String.eqb_neq. intros ->. contradiction.
Qed.

(** X16. The directory is built from a dict, whose keys are distinct: then the
    health check finds no abbreviation twice, [nonunique_abbs] is empty. *)
Theorem nonunique_abbs_of_dict (city_map : list (string * string)) :
  NoDup (map fst city_map) ->
  nonunique_abbs (CityList_init city_map) = [].
Proof.
  intros Hnd. unfold nonunique_abbs. cbn [cities CityList_init].
  assert (Habbs : map abb (map (fun '(ab, city_name) => City_init city_name ab) city_map)
                  = map fst city_map).
  { rewrite map_map. apply map_ext. now intros [ab nm]. }
  rewrite Habbs.
  generalize (map fst city_map) at 2 as todo. intros todo.
  induction todo as [|ab rest IH]; [reflexivity|].
  cbn [nonunique_abbs_loop].
  pose proof (list_count_NoDup ab _ Hnd) as Hle.
  destruct (Nat.ltb_spec 1 (list_count ab (map fst city_map))); [lia|]. exact IH.
Qed.

Lemma nonunique_abbs_of_dict_witness :
  NoDup (map fst Examples.hongkong_map)
  /\ nonunique_abbs (CityList_init Examples.hongkong_map) = [].
Proof.
  assert (H : NoDup (map fst Examples.hongkong_map)).
  { cbn. apply NoDup_cons. split.
    - intros Hin. apply list_elem_of_singleton in Hin. discriminate.
    - apply NoDup_singleton. }
  split; [exact H | exact (nonunique_abbs_of_dict Examples.hongkong_map H)].
Defined.

(** X17. [problematic_names] stays empty exactly when every abbreviation has
    one or two characters and every name at least three. *)
Theorem problematic_names_empty (city_map : list (string * string)) :
  problematic_names city_map = [] <->
  Forall (fun p => 1 <= String.length (fst p) <= 2 /\ 3 <= String.length (snd p)) city_map.
Proof.
  unfold problematic_names. induction city_map as [|[ab nm] m IH]; cbn [flat_map].
  - split; [constructor | reflexivity].
  - rewrite Forall_cons. cbn [fst snd]. rewrite <- IH.
    destruct (Nat.eqb_spec (String.length ab) 0), (Nat.ltb_spec 2 (String.length ab)),
      (Nat.ltb_spec (String.length nm) 3); cbn [orb app].
    all: split; [intros Hempty | intros [Hlen Hrest]].
    all: try discriminate.
    all: try lia.
    all: try exact Hrest.
    split; [lia | exact Hempty].
Qed.

(** ** Dataset construction, continued *)

Section DatasetSubset.

Import AntigenicDatabase.

(** X18. The ids of [id_subset] are handled one after the other and
    independently: the data and the printed lines for a list of ids followed
    by another are those of the first list followed by those of the second. *)
Theorem Dataset_init_app (data : list record) (pre post : list string) :
  Dataset_init data (Some (pre ++ post))
  = match Dataset_init data (Some pre), Dataset_init data (Some post) with
    | Ok (d1, p1), Ok (d2, p2) =>
        Ok ({| dataset_data := dataset_data d1 ++ dataset_data d2;
               entries := []; ids := []; longs := [] |},
            p1 ++ p2)
    | Raise e, _ => Raise e
    | _, Raise e => Raise e
    end.
Proof.
  unfold Dataset_init. destruct (forallb (has_key "id") data) eqn:H; [|reflexivity].
  cbn [negb].
  destruct (subset_loop_total data pre H) as (d1 & p1 & H1).
  destruct (subset_loop_total data post H) as (d2 & p2 & H2).
  rewrite subset_loop_app, H1, subset_loop_acc, H2. reflexivity.
Qed.

(** X19. [Dataset.__init__] raises nothing but the [AssertionError] of its
    precondition: it returns exactly when every raw record has the key [id],
    whatever the subset. *)
Theorem Dataset_init_asserts (data : list record) (id_subset : option (list string)) :
  match Dataset_init data id_subset with
  | Ok _ => forallb (has_key "id") data = true
  | Raise e => e = AssertionError /\ forallb (has_key "id") data = false
  end.
Proof.
  unfold Dataset_init. destruct (forallb (has_key "id") data) eqn:H; [|now split].
  cbn [negb]. destruct id_subset as [sub|]; [|reflexivity].
  destruct (subset_loop_total data sub H) as (d & p & ->). reflexivity.
Qed.

Lemma id_is_selects (data : list record) (id1 : string) :
  forallb (has_key "id") data = true ->
  comprehension (id_is id1) data
  = Ok (map (fun r => match getitem r "id" with
                      | Ok (VStr s) => String.eqb s id1
                      | _ => false
                      end) data).
Proof.
  induction data as [|r data IH]; [reflexivity|].
  cbn [forallb]. intros [Hr Hd]%andb_prop. cbn [comprehension map].
  rewrite (IH Hd). unfold id_is.
  assert (Hget : exists v, getitem r "id" = Ok v).
  { clear -Hr. induction r as [|[k v] r IH]; [discriminate|].
    cbn in *. destruct (String.eqb k "id"); [eauto | now apply IH]. }
  destruct Hget as (v & ->). now destruct v.
Qed.

Lemma compress_map {A : Type} (f : A -> bool) (data : list A) :
  compress data (map f data) = filter (fun x => Is_true (f x)) data
  /\ count_true (map f data) = length (filter (fun x => Is_true (f x)) data).
Proof.
  unfold compress, count_true. induction data as [|x data [IH1 IH2]]; [now split|].
  cbn [map zip zip_with]. rewrite !filter_cons. cbn [snd].
  destruct (f x).
  - rewrite !decide_True by exact Logic.I. cbn. now rewrite IH1, IH2.
  - rewrite !decide_False by tauto. now split.
Qed.

(** X20. One non-empty id of the subset brings in the raw records whose id is
    that string, all of them and in their order; a line is printed when there
    is none and when there is more than one, and none is printed for exactly
    one. *)
Theorem Dataset_init_one_id (data : list record) (id1 : string) :
  forallb (has_key "id") data = true ->
  id1 <> EmptyString ->
  let selected :=
    filter (fun r => Is_true match getitem r "id" with
                             | Ok (VStr s) => String.eqb s id1
                             | _ => false
                             end) data in
  Dataset_init data (Some [id1])
  = Ok ({| dataset_data := selected; entries := []; ids := []; longs := [] |},
        match length selected with
        | 0 => [warn_no_data id1]
        | 1 => []
        | _ => [warn_more_than_one id1]
        end).
Proof.
  intros H Hid selected. unfold Dataset_init. rewrite H. cbn [negb subset_loop].
  rewrite (id_is_selects data id1 H).
  destruct (compress_map (fun r => match getitem r "id" with
                                   | Ok (VStr s) => String.eqb s id1
                                   | _ => false
                                   end) data) as [-> ->].
  fold selected.
  destruct (String.eqb_spec id1 EmptyString) as [->|_]; [congruence|].
  clearbody selected. destruct selected as [|r1 [|r2 rest]]; reflexivity.
Qed.

Lemma Dataset_init_one_id_witness :
  forallb (has_key "id") [Examples.vietnam; Examples.hongkong] = true
  /\ "A2" <> EmptyString
  /\ Dataset_init [Examples.vietnam; Examples.hongkong] (Some ["A2"])
     = Ok ({| dataset_data := [Examples.hongkong]; entries := []; ids := [];
              longs := [] |}, []).
Proof.
  assert (H1 : forallb (has_key "id") [Examples.vietnam; Examples.hongkong] = true)
    by reflexivity.
  assert (H2 : "A2" <> EmptyString) by discriminate.
  split; [exact H1|]. split; [exact H2|].
  exact (Dataset_init_one_id [Examples.vietnam; Examples.hongkong] "A2" H1 H2).
Defined.

End DatasetSubset.

(** ** Entries *)

Section Entries.

Import AntigenicDatabase.
Context {RE : ReEngine}.
Variable city_map : list (string * string).
Variable set_iter : list nat -> list nat.

Lemma Entry_init_inv (data : record) (entry : Entry) :
  Entry_init city_map set_iter data = Ok entry ->
  exists idv lg sh,
    getitem data "id" = Ok idv
    /\ getitem data "long" = Ok (VStr lg)
    /\ _find_short_name city_map set_iter lg = Ok sh
    /\ entry = {| _data := data; id := idv; long := lg;
                  properties :=
                    filter (fun kv => negb (bool_decide (fst kv ∈ ["id"; "long"]))) data;
                  short := sh |}.
Proof.
  unfold Entry_init.
  destruct (has_key "id" data); [|discriminate]. cbn [negb].
  destruct (getitem data "id") as [idv|e] eqn:Hid; [|discriminate].
  destruct (has_key "long" data); [|discriminate]. cbn [negb].
  destruct (getitem data "long") as [[| b | z | lg | l | d]|e] eqn:Hlong;
    try discriminate.
  destruct (_find_short_name city_map set_iter lg) as [sh|e] eqn:Hshort; [|discriminate].
  intros [= <-]. now exists idv, lg, sh.
Qed.

Lemma getitem_filter (keep : string -> bool) (d : list (string * pyval)) (k : string) :
  keep k = true ->
  getitem (filter (fun kv => Is_true (keep (fst kv))) d) k = getitem d k.
Proof.
  intros Hk. induction d as [|[k' v] d IH]; [reflexivity|].
  rewrite filter_cons. cbn [fst getitem].
  destruct (keep k') eqn:E.
  - rewrite decide_True by exact Logic.I. cbn [getitem]. now rewrite IH.
  - rewrite decide_False by tauto.
    destruct (String.eqb_spec k' k) as [->|_]; [congruence | exact IH].
Qed.

Lemma has_key_filter (keep : string -> bool) (d : list (string * pyval)) (k : string) :
  keep k = false ->
  has_key k (filter (fun kv => Is_true (keep (fst kv))) d) = false.
Proof.
  intros Hk. unfold has_key. induction d as [|[k' v] d IH]; [reflexivity|].
  rewrite filter_cons. cbn [fst].
  destruct (keep k') eqn:E.
  - rewrite decide_True by exact Logic.I. cbn [existsb fst]. rewrite IH.
    destruct (String.eqb_spec k' k) as [->|_]; [congruence | reflexivity].
  - rewrite decide_False by tauto. exact IH.
Qed.

(** X21. An entry that is constructed keeps the record, takes [id] and [long]
    from it, the long name being a string, and its [properties] are the other
    items: they have neither of the two keys, and every other key looks up in
    them what it looks up in the record. *)
Theorem Entry_init_fields (data : record) (entry : Entry) :
  Entry_init city_map set_iter data = Ok entry ->
  _data entry = data
  /\ getitem data "id" = Ok (id entry)
  /\ getitem data "long" = Ok (VStr (long entry))
  /\ _find_short_name city_map set_iter (long entry) = Ok (short entry)
  /\ has_key "id" (properties entry) = false
  /\ has_key "long" (properties entry) = false
  /\ forall key, key <> "id" -> key <> "long" ->
                 getitem (properties entry) key = getitem data key.
Proof.
  intros (idv & lg & sh & H1 & H2 & H3 & ->)%Entry_init_inv.
  cbn [_data id long short properties].
  pose (keep := fun k : string => negb (bool_decide (k ∈ ["id"; "long"]))).
  change (filter (fun kv => negb (bool_decide (fst kv ∈ ["id"; "long"]))) data)
    with (filter (fun kv => Is_true (keep (fst kv))) data).
  repeat split; try assumption.
  - now apply has_key_filter.
  - now apply has_key_filter.
  - intros key Hid Hlong. apply getitem_filter. unfold keep.
    rewrite bool_decide_eq_false_2; [reflexivity|].
    intros [->|[->|H]%elem_of_cons]%elem_of_cons; [congruence | congruence | inversion H].
Qed.

Lemma getitem_has_key (d : record) (k : string) :
  has_key k d = true -> exists v, getitem d k = Ok v.
Proof.
  unfold has_key. induction d as [|[k' v] d IH]; [discriminate|].
  cbn [existsb fst getitem]. destruct (String.eqb k' k); [eauto | exact IH].
Qed.

(** X22. [Entry.__init__] raises an [AssertionError] for a record without
    [id], for one without [long], and for one whose long name is not a
    string, with every engine and directory. *)
Theorem Entry_init_asserts (data : record) :
  has_key "id" data = false
  \/ has_key "long" data = false
  \/ (exists v, getitem data "long" = Ok v /\ forall s, v <> VStr s) ->
  Entry_init city_map set_iter data = Raise AssertionError.
Proof.
  unfold Entry_init. intros H.
  destruct (has_key "id" data) eqn:Hid; [|reflexivity]. cbn [negb].
  destruct (getitem_has_key data "id" Hid) as (idv & ->).
  destruct (has_key "long" data) eqn:Hlong; [|reflexivity]. cbn [negb].
  destruct H as [H|[H|(v & Hv & Hstr)]]; try discriminate.
  rewrite Hv. destruct v; try reflexivity. now destruct (Hstr s).
Qed.

Lemma matches_loop_bound (self : Entry) (ignore_case regexp : bool)
  (search_names : list string) (matches n : nat) :
  matches_loop self ignore_case regexp search_names matches = Ok n ->
  matches <= n
  /\ n <= matches + length (filter (fun nm => Is_true (informative nm)) search_names).
Proof.
  revert matches. induction search_names as [|nm rest IH]; intros matches;
    cbn [matches_loop].
  - intros [= <-]. cbn. lia.
  - rewrite filter_cons. destruct (informative nm).
    + rewrite decide_True by exact Logic.I. cbn [length].
      destruct (_deep_search self nm ignore_case regexp) as [hit|e]; [|discriminate].
      intros H%IH. destruct hit; lia.
    + rewrite decide_False by tauto. apply IH.
Qed.

(** X23. The score of the plain pass counts fragments of the query: it is at
    most the number of ['/']-fragments that pass the filter on short names,
    for every entry. *)
Theorem alias_score_bound (self : Entry) (query : string)
  (ignore_case ignore_mutations regexp : bool) (score : nat) :
  _alias_search city_map self query ignore_case false ignore_mutations regexp = Ok score ->
  score <= length (filter (fun nm => Is_true (informative nm)) (Str.split "/" query))
  /\ score <= length (Str.split "/" query).
Proof.
  unfold _alias_search.
  assert (Hle : length (filter (fun nm => Is_true (informative nm)) (Str.split "/" query))
                <= length (Str.split "/" query)) by apply length_filter.
  destruct (_ && _).
  - intros [= <-]. lia.
  - intros H%matches_loop_bound. lia.
Qed.

(** X27. Without [regexp] and without the refined search no pattern is
    compiled: the score of an entry is always returned, for every query, engine
    and directory. *)
Theorem alias_search_literal_returns (self : Entry) (query : string)
  (ignore_case ignore_mutations : bool) :
  exists score,
    _alias_search city_map self query ignore_case false ignore_mutations false = Ok score.
Proof.
  unfold _alias_search. destruct (_ && _); [eauto|].
  apply matches_loop_literal_returns.
Qed.

End Entries.

Lemma Entry_init_fields_witness :
  AntigenicDatabase.Entry_init (RE := LiteralRe.engine) Examples.hongkong_map
    Examples.first_seen Examples.hongkong = Ok Examples.hongkong_entry
  /\ getitem (AntigenicDatabase.properties Examples.hongkong_entry) "clade"
     = getitem Examples.hongkong "clade".
Proof.
  assert (H : AntigenicDatabase.Entry_init (RE := LiteralRe.engine) Examples.hongkong_map
                Examples.first_seen Examples.hongkong = Ok Examples.hongkong_entry)
    by (vm_compute; reflexivity).
  split; [exact H|].
  destruct (Entry_init_fields (RE := LiteralRe.engine) Examples.hongkong_map
              Examples.first_seen Examples.hongkong Examples.hongkong_entry H)
    as (_ & _ & _ & _ & _ & _ & Hprop).
  apply Hprop; discriminate.
Defined.

Lemma Entry_init_asserts_witness :
  (has_key "id" [("id", VStr "A1"); ("long", VInt 7)] = false
   \/ has_key "long" [("id", VStr "A1"); ("long", VInt 7)] = false
   \/ (exists v, getitem [("id", VStr "A1"); ("long", VInt 7)] "long" = Ok v
                  /\ forall s, v <> VStr s))
  /\ AntigenicDatabase.Entry_init (RE := LiteralRe.engine) Examples.hongkong_map
       Examples.first_seen [("id", VStr "A1"); ("long", VInt 7)] = Raise AssertionError.
Proof.
  assert (H : has_key "id" [("id", VStr "A1"); ("long", VInt 7)] = false
              \/ has_key "long" [("id", VStr "A1"); ("long", VInt 7)] = false
              \/ (exists v, getitem [("id", VStr "A1"); ("long", VInt 7)] "long" = Ok v
                             /\ forall s, v <> VStr s)).
  { right. right. exists (VInt 7). split; [reflexivity | discriminate]. }
  split; [exact H|].
  exact (Entry_init_asserts (RE := LiteralRe.engine) Examples.hongkong_map
           Examples.first_seen _ H).
Defined.

Lemma alias_score_bound_witness :
  AntigenicDatabase._alias_search (RE := LiteralRe.engine) Examples.hongkong_map
    Examples.vietnam_entry "A/VIETNAM/1194/2004" true false false true = Ok 3
  /\ 3 <= length (Str.split "/" "A/VIETNAM/1194/2004").
Proof.
  assert (H : AntigenicDatabase._alias_search (RE := LiteralRe.engine)
                Examples.hongkong_map Examples.vietnam_entry "A/VIETNAM/1194/2004"
                true false false true = Ok 3) by (vm_compute; reflexivity).
  split; [exact H|].
  exact (proj2 (alias_score_bound (RE := LiteralRe.engine) Examples.hongkong_map
                  Examples.vietnam_entry "A/VIETNAM/1194/2004" true false true 3 H)).
Defined.

(** ** Lookups in a dataset *)

Section Lookups.

Import AntigenicDatabase.
Context {RE : ReEngine}.

(** X24. [get_entry] by id needs string ids: when an id of the dataset is not
    a string the lookup raises, for every query, since every stored id is
    handed to [re.findall] as a pattern. *)
Theorem get_entry_needs_string_ids (self : Dataset) (search_value : string) (v : pyval) :
  v ∈ ids self ->
  (forall s, v <> VStr s) ->
  exists e, get_entry self search_value "id" = Raise e.
Proof.
  intros Hin Hstr. unfold get_entry.
  rewrite bool_decide_eq_true_2 by (apply elem_of_cons; now left).
  cbn [negb]. change (String.eqb "id" "id") with true. cbn iota.
  destruct (indices_where _ _) as [Ix|e] eqn:E; [|eauto].
  destruct (take_indices_where _ _ _ E) as (_ & _ & Hall).
  rewrite Forall_forall in Hall. destruct (Hall v Hin) as (b & Hb).
  destruct v; try discriminate. now destruct (Hstr s).
Qed.

Lemma indices_where_total {A : Type} (p : A -> py bool) (l : list A) (i : nat) :
  (forall x, exists b, p x = Ok b) ->
  exists Ix, indices_where p (enumerate_from i l) = Ok Ix.
Proof.
  intros Hp. revert i. induction l as [|x l IH]; intros i; [now exists []|].
  cbn. destruct (Hp x) as (b & ->). destruct (IH (S i)) as (Ix & ->). eauto.
Qed.

(** X25. [Dataset.deep_search] never raises.  It returns an ordered part of
    the entries: exactly the entries whose record has, among the strings that
    [dict_search] visits, one equal to the value, both upper-cased when
    [ignore_case] is set. *)
Theorem Dataset_deep_search_spec (self : Dataset) (search_value : string)
  (ignore_case : bool) :
  exists found,
    deep_search self search_value ignore_case = Ok found
    /\ sublist found (entries self)
    /\ forall entry,
         entry ∈ found <->
         entry ∈ entries self
         /\ exists s, s ∈ string_leaves (VDict (_data entry))
                      /\ (if ignore_case then Str.upper s else s)
                         = (if ignore_case then Str.upper search_value else search_value).
Proof.
  unfold deep_search.
  destruct (indices_where_total
              (fun entry => _deep_search entry search_value ignore_case false)
              (entries self) 0) as (Ix & E).
  { intros entry. unfold _deep_search.
    destruct (dict_search_literal (_data entry) search_value ignore_case)
      as (hit & -> & _). eauto. }
  fold (enumerate (entries self)) in E. rewrite E.
  destruct (take_indices_where _ _ _ E) as (Hsub & Hmem & _).
  eexists. split; [reflexivity|]. split; [exact Hsub|].
  intros entry. rewrite Hmem. apply and_iff_compat_l. unfold _deep_search.
  destruct (dict_search_literal (_data entry) search_value ignore_case)
    as (hit & -> & Hhit).
  rewrite <- Hhit. split; [now intros [= ->] | now intros ->].
Qed.

End Lookups.

Lemma get_entry_needs_string_ids_witness :
  let numbered :=
    {| AntigenicDatabase.dataset_data := []; AntigenicDatabase.entries := [];
       AntigenicDatabase.ids := [VStr "A1"; VInt 7]; AntigenicDatabase.longs := [] |} in
  VInt 7 ∈ AntigenicDatabase.ids numbered
  /\ (forall s, VInt 7 <> VStr s)
  /\ exists e, AntigenicDatabase.get_entry (RE := LiteralRe.engine) numbered "A1" "id"
               = Raise e.
Proof.
  intros numbered.
  assert (H1 : VInt 7 ∈ AntigenicDatabase.ids numbered)
    by (cbn; apply elem_of_cons; right; apply elem_of_cons; now left).
  assert (H2 : forall s, VInt 7 <> VStr s) by discriminate.
  split; [exact H1|]. split; [exact H2|].
  exact (get_entry_needs_string_ids (RE := LiteralRe.engine) numbered "A1" (VInt 7) H1 H2).
Defined.

(** ** The fields of a dataset *)

Section Fields.

Import AntigenicDatabase.
Context {RE : ReEngine}.
Variable city_map : list (string * string).
Variable set_iter : list nat -> list nat.

Lemma has_key_elem (d : record) (k : string) :
  has_key k d = true <-> k ∈ map fst d.
Proof.
  unfold has_key. rewrite existsb_exists, list_elem_of_fmap. split.
  - intros (kv & Hin & Heq). exists kv. apply String.eqb_eq in Heq.
    split; [now symmetry | now apply list_elem_of_In].
  - intros (kv & -> & Hin). exists kv.
    split; [now apply list_elem_of_In | apply String.eqb_refl].
Qed.

Lemma fold_fields (es : list Entry) (init : gset string) (field : string) :
  field ∈ fold_left (fun all_fields entry =>
                       all_fields ∪ list_to_set (map fst (properties entry))) es init
  <-> field ∈ init \/ exists entry, entry ∈ es /\ field ∈ map fst (properties entry).
Proof.
  revert init. induction es as [|e es IH]; intros init; cbn [fold_left].
  - split; [now left|]. intros [H|(entry & H & _)]; [exact H | inversion H].
  - rewrite IH, elem_of_union, elem_of_list_to_set. split.
    + intros [[H|H]|(entry & Hin & H)].
      * now left.
      * right. exists e. split; [apply elem_of_cons; now left | exact H].
      * right. exists entry. split; [apply elem_of_cons; now right | exact H].
    + intros [H|(entry & [->|Hin]%elem_of_cons & H)].
      * left. now left.
      * left. now right.
      * right. eauto.
Qed.

(** X26. The fields of a constructed dataset are [id], [long] and every key
    that occurs in one of its records, and nothing else. *)
Theorem get_all_fields_spec (data : list record) (id_subset : option (list string))
  (self : Dataset) (printed : list string) (field : string) :
  subclass_init city_map set_iter data id_subset = Ok (self, printed) ->
  field ∈ get_all_fields self <->
  field = "id" \/ field = "long"
  \/ exists r, r ∈ dataset_data self /\ has_key field r = true.
Proof.
  unfold subclass_init.
  destruct (Dataset_init data id_subset) as [[base printed']|e]; [|discriminate].
  destruct (comprehension _ _) as [es|e] eqn:Hes; [|discriminate].
  intros [= <- <-]. apply comprehension_Forall2 in Hes.
  unfold get_all_fields. cbn [entries dataset_data].
  rewrite fold_fields, elem_of_list_to_set, elem_of_cons, list_elem_of_singleton.
  split.
  - intros [[H|H]|(entry & Hin & Hf)]; [now left | right; now left |].
    right. right.
    apply list_elem_of_lookup in Hin as (i & Hi).
    destruct (Forall2_lookup_r _ _ _ _ _ Hes Hi) as (r & Hr & Hinit).
    apply Entry_init_inv in Hinit as (idv & lg & sh & _ & _ & _ & ->).
    cbn [properties] in Hf.
    exists r. split; [apply list_elem_of_lookup; eauto|].
    apply has_key_elem. apply list_elem_of_fmap in Hf as (kv & -> & Hkv).
    apply list_elem_of_filter in Hkv as [_ Hkv]. apply list_elem_of_fmap. eauto.
  - intros [H|[H|(r & Hin & Hk)]]; [left; now left | left; now right |].
    destruct (decide (field ∈ ["id"; "long"])) as [Hf|Hf].
    { left. now rewrite elem_of_cons, list_elem_of_singleton in Hf. }
    right.
    apply list_elem_of_lookup in Hin as (i & Hi).
    destruct (Forall2_lookup_l _ _ _ _ _ Hes Hi) as (entry & He & Hinit).
    exists entry. split; [apply list_elem_of_lookup; eauto|].
    apply Entry_init_inv in Hinit as (idv & lg & sh & _ & _ & _ & ->).
    cbn [properties].
    apply has_key_elem, list_elem_of_fmap in Hk as (kv & -> & Hkv).
    apply list_elem_of_fmap. exists kv. split; [reflexivity|].
    apply list_elem_of_filter. split; [|exact Hkv].
    apply Is_true_true, negb_true_iff, bool_decide_eq_false_2. exact Hf.
Qed.

End Fields.

Lemma get_all_fields_spec_witness :
  AntigenicDatabase.subclass_init (RE := LiteralRe.engine) Examples.hongkong_map
    Examples.first_seen [Examples.vietnam; Examples.hongkong] None
  = Ok (Examples.antigens, [])
  /\ "clade" ∈ AntigenicDatabase.get_all_fields Examples.antigens.
Proof.
  assert (H : AntigenicDatabase.subclass_init (RE := LiteralRe.engine)
                Examples.hongkong_map Examples.first_seen
                [Examples.vietnam; Examples.hongkong] None
              = Ok (Examples.antigens, [])) by (vm_compute; reflexivity).
  split; [exact H|].
  apply (get_all_fields_spec (RE := LiteralRe.engine) Examples.hongkong_map
           Examples.first_seen _ _ _ _ "clade" H).
  right. right. exists Examples.hongkong.
  split; [cbn; apply elem_of_cons; right; apply elem_of_cons; now left | reflexivity].
Defined.
